(** * drag_mouse.py: parser and single-hold executor

    A shallow embedding of [src/drag_mouse.py]:
    - Python [str] is modelled as [list ascii], the Latin-1 code points
      0..255, and the builtins the code calls ([str.strip], [str.split],
      [str.upper], [str.lower], [int], [float], [re.match]) are modelled for
      that range, where they decide as Python does;
    - the loop body of [parse_file] is modelled a second time over any
      Unicode code point ([u_parse_line], with the character tables of
      Unicode 14.0), which shows how characters beyond 255 are read;
    - [float] rounds a literal to the nearest binary64 value (ties to even,
      with subnormals, underflow to zero and overflow to infinity), and
      [time.sleep] rejects its argument as CPython 3.12 does;
    - [run_single_hold] runs in a state-and-exception monad whose state is the
      trace of calls to [print], [time.sleep] and the pyautogui primitives;
      an oracle decides which call raises (failsafe, Ctrl+C or a failing
      system call). *)

From Stdlib Require Import List Ascii String ZArith QArith Lia Bool.
From Stdlib Require Import Numbers.DecimalString QArith.Qround.
Import ListNotations.

Open Scope list_scope.

(** ** Python strings *)

Definition str := list ascii.

Definition lit (s : string) : str := list_ascii_of_string s.

Definition ch_eqb (a b : ascii) : bool := Ascii.eqb a b.

(** [str.isspace] on code points 0..255: \t \n \v \f \r, \x1c..\x1f,
    space, \x85 and \xa0.  [str.strip], [str.split] and the [\s] of a [str]
    regex use this same set. *)
Definition is_space (c : ascii) : bool :=
  let n := nat_of_ascii c in
  ((9 <=? n) && (n <=? 13)) || ((28 <=? n) && (n <=? 32))
  || (n =? 133) || (n =? 160).

(** [\d] of a [str] regex, and the digits [int]/[float] accept, in 0..255. *)
Definition is_digit (c : ascii) : bool :=
  let n := nat_of_ascii c in (48 <=? n) && (n <=? 57).

(** [str.upper] / [str.lower] on ASCII letters.  Of the other characters
    of 0..255 only the sharp s (upper-cased to SS) upper-cases to a letter of
    SLEEP, and never to a prefix of it, and none lower-cases to a letter of
    left/right/middle, so the decisions of the code are those of Python. *)
Definition ascii_upper (c : ascii) : ascii :=
  let n := nat_of_ascii c in
  if (97 <=? n) && (n <=? 122) then ascii_of_nat (n - 32) else c.

Definition ascii_lower (c : ascii) : ascii :=
  let n := nat_of_ascii c in
  if (65 <=? n) && (n <=? 90) then ascii_of_nat (n + 32) else c.

Definition upper (s : str) : str := map ascii_upper s.
Definition lower (s : str) : str := map ascii_lower s.

Fixpoint str_eqb (a b : str) : bool :=
  match a, b with
  | [], [] => true
  | x :: a', y :: b' => ch_eqb x y && str_eqb a' b'
  | _, _ => false
  end.

(** [s.startswith(p)] *)
Fixpoint startswith (s p : str) : bool :=
  match p, s with
  | [], _ => true
  | c :: p', d :: s' => ch_eqb c d && startswith s' p'
  | _ :: _, [] => false
  end.

Fixpoint lstrip (s : str) : str :=
  match s with
  | c :: s' => if is_space c then lstrip s' else s
  | [] => []
  end.

(** [s.strip()] *)
Definition strip (s : str) : str := rev (lstrip (rev (lstrip s))).

(** [s.split()]: maximal runs of non-whitespace, in order. *)
Fixpoint split_aux (s : str) (cur : str) : list str :=
  match s with
  | [] => match cur with [] => [] | _ => [rev cur] end
  | c :: s' =>
      if is_space c then
        match cur with
        | [] => split_aux s' []
        | _ => rev cur :: split_aux s' []
        end
      else split_aux s' (c :: cur)
  end.

Definition split (s : str) : list str := split_aux s [].

(** [str(n)] for a line number. *)
Definition str_of_nat (n : nat) : str :=
  lit (NilEmpty.string_of_uint (Nat.to_uint n)).

(** ** The numeric builtins [int] and [float] *)

Definition digit_val (c : ascii) : Z := Z.of_nat (nat_of_ascii c - 48).

(** Value of a decimal digit string. *)
Definition digits_value (ds : str) : Z :=
  fold_left (fun acc c => acc * 10 + digit_val c)%Z ds 0%Z.

(** Underscores are accepted only between two digits; they are dropped. *)
Fixpoint drop_underscores (prev_digit : bool) (s : str) : option str :=
  match s with
  | [] => Some []
  | c :: s' =>
      if ch_eqb c "_" then
        if prev_digit then
          match s' with
          | d :: _ => if is_digit d then drop_underscores false s' else None
          | [] => None
          end
        else None
      else option_map (cons c) (drop_underscores (is_digit c) s')
  end.

Fixpoint take_digits (s : str) : str * str :=
  match s with
  | c :: s' =>
      if is_digit c then let (d, r) := take_digits s' in (c :: d, r)
      else ([], s)
  | [] => ([], [])
  end.

Definition take_sign (s : str) : bool * str :=
  match s with
  | c :: s' =>
      if ch_eqb c "-" then (true, s')
      else if ch_eqb c "+" then (false, s') else (false, s)
  | [] => (false, [])
  end.

Definition signed (neg : bool) (z : Z) : Z := if neg then (- z)%Z else z.

(** The whitespace [int] and [float] strip: CPython first turns every
    Unicode space of the text into ' ' (here \x85 and \xa0), then strips
    the ASCII whitespace \t \n \v \f \r and space; \x1c..\x1f stay. *)
Definition num_space (c : ascii) : bool :=
  let n := nat_of_ascii c in
  ((9 <=? n) && (n <=? 13)) || (n =? 32) || (n =? 133) || (n =? 160).

Fixpoint num_lstrip (s : str) : str :=
  match s with
  | c :: s' => if num_space c then num_lstrip s' else s
  | [] => []
  end.

Definition num_strip (s : str) : str := rev (num_lstrip (rev (num_lstrip s))).

(** [int(s)] (base 10). *)
Definition py_int (s : str) : option Z :=
  match drop_underscores false (num_strip s) with
  | None => None
  | Some t =>
      let (neg, u) := take_sign t in
      let (d, r) := take_digits u in
      match d, r with
      | _ :: _, [] => Some (signed neg (digits_value d))
      | _, _ => None
      end
  end.

(** A Python float: finite (the exact value of the double, the sign of a
    zero not kept), infinite, or NaN. *)
Inductive pyfloat :=
| FFin (q : Q)
| FInf (neg : bool)
| FNaN.

(** [2 ^ e] for an integer [e]. *)
Definition pow2 (e : Z) : Q :=
  if (0 <=? e)%Z then inject_Z (2 ^ e) else 1 # Z.to_pos (2 ^ (- e)).

(** [floor (log2 q)] for [q > 0]. *)
Definition log2_floor (q : Q) : Z :=
  let e := (Z.log2 (Qnum q) - Z.log2 (Zpos (Qden q)))%Z in
  if Qle_bool (pow2 e) q then e else (e - 1)%Z.

(** The integer nearest to [q >= 0], ties to even. *)
Definition round_half_even (q : Q) : Z :=
  let n := Qnum q in
  let d := Zpos (Qden q) in
  let f := (n / d)%Z in
  match Z.compare (2 * (n mod d)) d with
  | Lt => f
  | Gt => (f + 1)%Z
  | Eq => if Z.even f then f else (f + 1)%Z
  end.

(** The binary64 value nearest to [q >= 0], ties to even: 53 significant
    bits, and the fixed quantum 2^-1074 below 2^-1022 (subnormals, and the
    underflow to zero).  Overflow is left to the callers. *)
Definition dbl (q : Q) : Q :=
  let q := Qred q in
  if Qeq_bool q 0 then 0
  else
    let k := (Z.max (log2_floor q) (-1022) - 52)%Z in
    Qred (inject_Z (round_half_even (q / pow2 k)) * pow2 k).

(** Binary64 overflow: a magnitude at or above the midpoint between the
    largest finite double and 2^1024 rounds to infinity. *)
Definition overflow_bound : Q := ((2 ^ 1024 - 2 ^ 970)%Z # 1).

(** The double a decimal literal of sign [neg] and magnitude [q] denotes
    ([float] rounds correctly, ties to even). *)
Definition float_of_Q (neg : bool) (q : Q) : pyfloat :=
  if Qle_bool overflow_bound q then FInf neg
  else FFin (Qred (if neg then - dbl q else dbl q)).

Definition decimal_Q (m : Z) (scale : Z) : Q :=
  if (0 <=? scale)%Z then ((m * 10 ^ scale)%Z # 1)
  else (m # Z.to_pos (10 ^ (- scale))).

Definition parse_exponent (r : str) : option Z :=
  match r with
  | [] => Some 0%Z
  | c :: r' =>
      if ch_eqb c "e" || ch_eqb c "E" then
        let (neg, r'') := take_sign r' in
        let (de, rest) := take_digits r'' in
        match de, rest with
        | _ :: _, [] => Some (signed neg (digits_value de))
        | _, _ => None
        end
      else None
  end.

(** digits ["." digits] [exponent], at least one digit before the exponent. *)
Definition parse_decimal (u : str) : option Q :=
  let (d1, r1) := take_digits u in
  let '(d2, r2) :=
    match r1 with
    | c :: r => if ch_eqb c "." then take_digits r else ([], r1)
    | [] => ([], [])
    end in
  match d1 ++ d2 with
  | [] => None
  | ds =>
      match parse_exponent r2 with
      | Some e =>
          Some (decimal_Q (digits_value ds) (e - Z.of_nat (List.length d2)))
      | None => None
      end
  end.

(** [float(s)]. *)
Definition py_float (s : str) : option pyfloat :=
  match drop_underscores false (num_strip s) with
  | None => None
  | Some t =>
      let (neg, u) := take_sign t in
      let lu := lower u in
      if str_eqb lu (lit "inf") || str_eqb lu (lit "infinity") then Some (FInf neg)
      else if str_eqb lu (lit "nan") then Some FNaN
      else option_map (float_of_Q neg) (parse_decimal u)
  end.

(** ** [re.match] for the constructs of [drag_line_re]

    A backtracking matcher in continuation-passing style, trying
    alternatives in the order of Python's [re]: greedy repetitions try the
    longest run first, [?] tries the item before skipping it.  Captures are
    an association list, the most recent binding first. *)

Definition caps := list (nat * str).

Fixpoint group (n : nat) (cs : caps) : option str :=
  match cs with
  | [] => None
  | (m, v) :: cs' => if Nat.eqb n m then Some v else group n cs'
  end.

Inductive regex :=
| REps                              (* empty pattern *)
| RBol                              (* ^ : re.match starts at position 0 *)
| REol                              (* $ : end, or before a final newline *)
| RChar (c : ascii)                 (* a literal character *)
| RStar (p : ascii -> bool)         (* [class]* greedy *)
| RPlus (p : ascii -> bool)         (* [class]+ greedy *)
| ROpt (r : regex)                  (* (?:r)? greedy *)
| RSeq (r1 r2 : regex)
| RGroup (n : nat) (r : regex).     (* capturing group number n *)

Definition cont := str -> caps -> option caps.

Fixpoint star (p : ascii -> bool) (s : str) (cs : caps) (k : cont) : option caps :=
  match s with
  | d :: s' =>
      if p d then
        match star p s' cs k with
        | Some x => Some x
        | None => k s cs
        end
      else k s cs
  | [] => k s cs
  end.

Fixpoint mt (r : regex) (s : str) (cs : caps) (k : cont) : option caps :=
  match r with
  | REps => k s cs
  | RBol => k s cs
  | REol =>
      match s with
      | [] => k s cs
      | [c] => if ch_eqb c "010"%char then k s cs else None
      | _ => None
      end
  | RChar c =>
      match s with
      | d :: s' => if ch_eqb c d then k s' cs else None
      | [] => None
      end
  | RStar p => star p s cs k
  | RPlus p =>
      match s with
      | d :: s' => if p d then star p s' cs k else None
      | [] => None
      end
  | ROpt r1 =>
      match mt r1 s cs k with
      | Some x => Some x
      | None => k s cs
      end
  | RSeq r1 r2 => mt r1 s cs (fun s' cs' => mt r2 s' cs' k)
  | RGroup n r1 =>
      mt r1 s cs (fun s' cs' =>
        k s' ((n, firstn (List.length s - List.length s') s) :: cs'))
  end.

(** [pattern.match(s)]: the captures of the first match, if any. *)
Definition re_match (r : regex) (s : str) : option caps :=
  mt r s [] (fun _ cs => Some cs).

Definition seqs (rs : list regex) : regex := fold_right RSeq REps rs.

Definition ws := RStar is_space.                           (* \s* *)
Definition int_re := RSeq (ROpt (RChar "-")) (RPlus is_digit).  (* -?\d+ *)
(** [[0-9]*\.?[0-9]+] *)
Definition dur_re := seqs [RStar is_digit; ROpt (RChar "."); RPlus is_digit].

(** [^\s*(-?\d+)\s*,\s*(-?\d+)\s*->\s*(-?\d+)\s*,\s*(-?\d+)(?:\s*,\s*([0-9]*\.?[0-9]+))?\s*$] *)
Definition drag_line_re : regex :=
  seqs [RBol; ws; RGroup 1 int_re; ws; RChar ","; ws; RGroup 2 int_re; ws;
        RChar "-"; RChar ">"; ws; RGroup 3 int_re; ws; RChar ","; ws;
        RGroup 4 int_re;
        ROpt (seqs [ws; RChar ","; ws; RGroup 5 dur_re]);
        ws; REol].

(** ** [parse_file] *)

(** A step: [("DRAG", (x1, y1, x2, y2, dur|None))] or [("SLEEP", seconds)]. *)
Inductive step :=
| SDrag (x1 y1 x2 y2 : Z) (dur : option pyfloat)
| SSleep (seconds : pyfloat).

(** The [ValueError]s the loop body can raise. *)
Inductive perr :=
| PSleepArity (line : str)       (* SLEEP requires one numeric value *)
| PSleepValue (tok : str)        (* Invalid SLEEP seconds *)
| PInvalid (line : str)          (* Invalid line. Expected ... *)
| PIntConv (tok : str)           (* raised by int() itself *)
| PFloatConv (tok : str).        (* raised by float() itself *)

Inductive line_result :=
| LSkip
| LStep (s : step)
| LErr (e : perr).

Definition opt_str (o : option str) : str :=
  match o with Some v => v | None => [] end.

(** Lines 73-76: the Drag step built from the groups of a match. *)
Definition drag_of_match (m : caps) : line_result :=
  let g n := opt_str (group n m) in
  match py_int (g 1%nat), py_int (g 2%nat), py_int (g 3%nat), py_int (g 4%nat) with
  | Some x1, Some y1, Some x2, Some y2 =>
      match group 5%nat m with
      | None => LStep (SDrag x1 y1 x2 y2 None)
      | Some dur_str =>
          match py_float dur_str with
          | Some d => LStep (SDrag x1 y1 x2 y2 (Some d))
          | None => LErr (PFloatConv dur_str)
          end
      end
  | None, _, _, _ => LErr (PIntConv (g 1%nat))
  | _, None, _, _ => LErr (PIntConv (g 2%nat))
  | _, _, None, _ => LErr (PIntConv (g 3%nat))
  | _, _, _, None => LErr (PIntConv (g 4%nat))
  end.

(** The body of the [for idx, raw in enumerate(f, start=1)] loop. *)
Definition parse_line (raw : str) : line_result :=
  let line := strip raw in
  if (match line with [] => true | _ => false end) || startswith line (lit "#")
  then LSkip
  else if startswith (upper line) (lit "SLEEP") then
    match split line with
    | [_; tok] =>
        match py_float tok with
        | Some seconds => LStep (SSleep seconds)
        | None => LErr (PSleepValue tok)
        end
    | _ => LErr (PSleepArity line)
    end
  else
    match re_match drag_line_re line with
    | None => LErr (PInvalid line)
    | Some m => drag_of_match m
    end.

(** The text of the [ValueError] raised at line [idx]. *)
Definition perr_message (path : str) (idx : nat) (e : perr) : str :=
  match e with
  | PSleepArity line =>
      path ++ lit ":" ++ str_of_nat idx
           ++ lit ": SLEEP requires one numeric value (seconds). Got: " ++ line
  | PSleepValue tok =>
      path ++ lit ":" ++ str_of_nat idx ++ lit ": Invalid SLEEP seconds: " ++ tok
  | PInvalid line =>
      path ++ lit ":" ++ str_of_nat idx
           ++ lit ": Invalid line. Expected 'x1,y1 -> x2,y2[,duration]'. Got: "
           ++ line
  | PIntConv tok =>
      lit "invalid literal for int() with base 10: '" ++ tok ++ lit "'"
  | PFloatConv tok =>
      lit "could not convert string to float: '" ++ tok ++ lit "'"
  end.

(** [parse_file path] on the lines [for raw in f] yields (each with its
    newline); [inl msg] is the [ValueError] raised. *)
Fixpoint parse_lines (path : str) (idx : nat) (lines : list str)
  : str + list step :=
  match lines with
  | [] => inr []
  | raw :: rest =>
      match parse_line raw with
      | LSkip => parse_lines path (S idx) rest
      | LErr e => inl (perr_message path idx e)
      | LStep s =>
          match parse_lines path (S idx) rest with
          | inl m => inl m
          | inr steps => inr (s :: steps)
          end
      end
  end.

Definition parse_file (path : str) (lines : list str) : str + list step :=
  parse_lines path 1 lines.

(** ** [run_single_hold] *)

(** Exceptions that can leave a call: pyautogui's [FailSafeException],
    [KeyboardInterrupt], the [ValueError] / [OverflowError] that
    [time.sleep] raises for a length it refuses, and the [OSError] of a
    failing system call. *)
Inductive exn := ExnFailSafe | ExnInterrupt | ExnValue | ExnOverflow | ExnOS.

Inductive tween := Linear | EaseInOutQuad.

(** What the [print] calls of [run_single_hold] report. *)
Inductive notice :=
| NNoDrag                                        (* No DRAG steps found *)
| NStart (x y : Z) (btn : str)                   (* Moving to START ... *)
| NSleep (seconds : pyfloat)                     (* [SLEEP] ... *)
| NWarn (sx sy cx cy : Z)                        (* [WARN] Segment start ... *)
| NMove (seg : nat) (sx sy ex ey : Z) (d : pyfloat)  (* [i] MOVE while holding *)
| NRelease.                                      (* Releasing mouse button. *)

Inductive event :=
| EPrint (n : notice)
| EMoveTo (x y : Z) (duration : pyfloat) (tw : tween)   (* pyautogui.moveTo *)
| EMouseDown (btn : str)                                (* pyautogui.mouseDown *)
| EMouseUp (btn : str)                                  (* pyautogui.mouseUp *)
| ESleep (seconds : pyfloat).                           (* time.sleep *)

Record state := mkState { trace : list event; ncalls : nat }.

Definition M (A : Type) := state -> state * (exn + A).

Definition ret {A} (a : A) : M A := fun s => (s, inr a).

Definition bind {A B} (m : M A) (f : A -> M B) : M B :=
  fun s => match m s with
           | (s', inl e) => (s', inl e)
           | (s', inr a) => f a s'
           end.

Notation "x <- m ;; k" := (bind m (fun x => k))
  (at level 61, m at next level, right associativity).
Notation "m ;; k" := (bind m (fun _ => k)) (at level 61, right associativity).

(** [try: body finally: cleanup]: an exception of the cleanup replaces the
    body's outcome, otherwise the body's outcome is kept. *)
Definition try_finally {A} (body : M A) (cleanup : M unit) : M A :=
  fun s => match body s with
           | (s1, r) =>
               match cleanup s1 with
               | (s2, inl e) => (s2, inl e)
               | (s2, inr _) => (s2, r)
               end
           end.

Definition Qltb (a b : Q) : bool := negb (Qle_bool b a).

(** [x > 0] on a float. *)
Definition gt0 (x : pyfloat) : bool :=
  match x with FFin q => Qltb 0 q | FInf neg => negb neg | FNaN => false end.

(** The double nearest to a rational of either sign. *)
Definition dbl_signed (p : Q) : Q := if Qle_bool 0 p then dbl p else - dbl (- p).

(** [_PyTime_ROUND_UP]: away from zero. *)
Definition round_up (d : Q) : Z := if Qle_bool 0 d then Qceiling d else Qfloor d.

(** The exception [time.sleep(x)] raises on its own, before sleeping: it
    converts [x] to a signed 64-bit count of nanoseconds.  NaN raises
    [ValueError]; the double [x * 1e9], rounded away from zero, must lie in
    [[-2^63, 2^63)], else [OverflowError] (both infinities included, and an
    infinite product too, its finite stand-in here being above 2^63); a
    negative count raises [ValueError].  The range is CPython's from 3.12 on;
    3.11 also lets the product 2^63 itself through, to an undefined cast.
    A length within the uptime of the 2^63 ns limit can still make the
    system call fail with [OSError]: that is the environment's doing, left
    to the oracle [raises] below. *)
Definition sleep_error (x : pyfloat) : option exn :=
  match x with
  | FNaN => Some ExnValue
  | FInf _ => Some ExnOverflow
  | FFin q =>
      let ns := round_up (dbl_signed (q * inject_Z (10 ^ 9))) in
      if (ns <? - 2 ^ 63)%Z || (2 ^ 63 <=? ns)%Z then Some ExnOverflow
      else if (ns <? 0)%Z then Some ExnValue
      else None
  end.

Section Executor.

(** [raises n]: the exception, if any, raised out of the [n]-th call
    (0-based) to [time.sleep] or to a pyautogui primitive: the failsafe
    fires, the user presses Ctrl+C while the program blocks there, or the
    system call fails ([OSError]). *)
Variable raises : nat -> option exn.

Definition call (ev : event) (builtin : option exn) : M unit :=
  fun s =>
    let n := ncalls s in
    let s' := mkState (trace s ++ [ev]) (S n) in
    match builtin with
    | Some e => (s', inl e)
    | None =>
        match raises n with
        | Some e => (s', inl e)
        | None => (s', inr tt)
        end
    end.

(** [print] does not block; it is recorded and returns. *)
Definition print (n : notice) : M unit :=
  fun s => (mkState (trace s ++ [EPrint n]) (ncalls s), inr tt).
Definition moveTo (x y : Z) (d : pyfloat) (tw : tween) : M unit :=
  call (EMoveTo x y d tw) None.
Definition mouseDown (btn : str) : M unit := call (EMouseDown btn) None.
Definition mouseUp (btn : str) : M unit := call (EMouseUp btn) None.
Definition sleep (x : pyfloat) : M unit := call (ESleep x) (sleep_error x).

(** One DRAG segment of the [for] loop, from the tracked position
    [(current_x, current_y)] and counter [seg_index]. *)
Definition drag_step (default_duration between_delay : pyfloat)
    (current_x current_y : Z) (seg_index : nat)
    (sx sy ex ey : Z) (dur : option pyfloat) : M (Z * Z * nat) :=
  let duration := match dur with Some d => d | None => default_duration end in
  (if negb (Z.eqb sx current_x && Z.eqb sy current_y) then
     print (NWarn sx sy current_x current_y) ;;
     moveTo sx sy (FFin 0) Linear
   else ret tt) ;;
  let seg_index' := S seg_index in
  print (NMove seg_index' sx sy ex ey duration) ;;
  moveTo ex ey duration EaseInOutQuad ;;
  (if gt0 between_delay then sleep between_delay else ret tt) ;;
  ret (ex, ey, seg_index').

Fixpoint run_steps (default_duration between_delay : pyfloat) (steps : list step)
    (current_x current_y : Z) (seg_index : nat) : M unit :=
  match steps with
  | [] => ret tt
  | SSleep seconds :: rest =>
      print (NSleep seconds) ;;
      sleep seconds ;;
      run_steps default_duration between_delay rest current_x current_y seg_index
  | SDrag sx sy ex ey dur :: rest =>
      p <- drag_step default_duration between_delay current_x current_y seg_index
                     sx sy ex ey dur ;;
      let '(cx, cy, si) := p in
      run_steps default_duration between_delay rest cx cy si
  end.

(** [next((p for (k, p) in steps if k == "DRAG"), None)], its start point. *)
Fixpoint first_drag (steps : list step) : option (Z * Z) :=
  match steps with
  | [] => None
  | SDrag x1 y1 _ _ _ :: _ => Some (x1, y1)
  | SSleep _ :: rest => first_drag rest
  end.

(** [btn = button.lower()], replaced by ["left"] when not a known button. *)
Definition norm_button (button : str) : str :=
  let btn := lower button in
  if existsb (str_eqb btn) [lit "left"; lit "right"; lit "middle"] then btn
  else lit "left".

Definition run_single_hold (steps : list step) (default_duration : pyfloat)
    (button : str) (between_delay : pyfloat) : M unit :=
  match first_drag steps with
  | None => print NNoDrag
  | Some (x1, y1) =>
      let btn := norm_button button in
      print (NStart x1 y1 btn) ;;
      moveTo x1 y1 (FFin 0) Linear ;;
      mouseDown btn ;;
      try_finally
        (run_steps default_duration between_delay steps x1 y1 0)
        (print NRelease ;; mouseUp btn)
  end.

End Executor.

Definition init : state := mkState [] 0.

(** No call raises. *)
Definition no_exn : nat -> option exn := fun _ => None.

Definition is_print (e : event) : bool :=
  match e with EPrint _ => true | _ => false end.

(** The calls to [time.sleep] and to pyautogui, without the [print]s. *)
Definition backend_calls (t : list event) : list event :=
  filter (fun e => negb (is_print e)) t.




Definition is_sleep_step (s : step) : bool :=
  match s with SSleep _ => true | SDrag _ _ _ _ _ => false end.


(** The spec's reading of "begins with the keyword SLEEP,
    case-insensitively". *)
Definition sleep_prefix (l : str) : Prop :=
  exists c1 c2 c3 c4 c5 rest,
    l = [c1; c2; c3; c4; c5] ++ rest
    /\ (c1 = "S" \/ c1 = "s")%char /\ (c2 = "L" \/ c2 = "l")%char
    /\ (c3 = "E" \/ c3 = "e")%char /\ (c4 = "E" \/ c4 = "e")%char
    /\ (c5 = "P" \/ c5 = "p")%char.

(** Outcomes of the SLEEP branch of the parser. *)
Definition is_sleep_result (r : line_result) : bool :=
  match r with
  | LStep (SSleep _) | LErr (PSleepArity _) | LErr (PSleepValue _) => true
  | _ => false
  end.

Definition no_space (s : str) : bool := forallb (fun c => negb (is_space c)) s.

Definition example_lines : list str :=
  [lit "-660,663 -> -961,494,1.0"; lit "SLEEP 0.1";
   lit "-961,494 -> -1260,494,1.0"].

(** Relational reading of a pattern: [rm r w rest cs cs'] when [r]
    consumes [w], the input left after it being [rest], and turns the
    captures [cs] into [cs']. *)
Inductive rm : regex -> str -> str -> caps -> caps -> Prop :=
| rm_eps rest cs : rm REps [] rest cs cs
| rm_bol rest cs : rm RBol [] rest cs cs
| rm_eol rest cs : rest = [] \/ rest = ["010"%char] -> rm REol [] rest cs cs
| rm_char c rest cs : rm (RChar c) [c] rest cs cs
| rm_star p w rest cs :
    Forall (fun c => p c = true) w -> rm (RStar p) w rest cs cs
| rm_plus p c w rest cs :
    p c = true -> Forall (fun c => p c = true) w -> rm (RPlus p) (c :: w) rest cs cs
| rm_opt_some r w rest cs cs' : rm r w rest cs cs' -> rm (ROpt r) w rest cs cs'
| rm_opt_none r rest cs : rm (ROpt r) [] rest cs cs
| rm_seq r1 r2 w1 w2 rest cs c1 c2 :
    rm r1 w1 (w2 ++ rest) cs c1 -> rm r2 w2 rest c1 c2 ->
    rm (RSeq r1 r2) (w1 ++ w2) rest cs c2
| rm_group n r w rest cs cs' :
    rm r w rest cs cs' -> rm (RGroup n r) w rest cs ((n, w) :: cs').

(** The spec's drag grammar
    [<int> , <int> -> <int> , <int> [ , <real> ]] with whitespace around
    every token, integers possibly signed, the real possibly without an
    integer part. *)
Definition wsp (w : str) : Prop := Forall (fun c => is_space c = true) w.
Definition digitsp (d : str) : Prop := Forall (fun c => is_digit c = true) d.

Definition int_token (neg : bool) (ds : str) : str :=
  (if neg then ["-"%char] else []) ++ ds.
Definition int_value (neg : bool) (ds : str) : Z :=
  if neg then (- digits_value ds)%Z else digits_value ds.

Definition real_token (d1 : str) (dot : bool) (d2 : str) : str :=
  d1 ++ (if dot then ["."%char] else []) ++ d2.
(** The real number the digits denote, and the double it is stored as. *)
Definition real_value (d1 : str) (dot : bool) (d2 : str) : Q :=
  inject_Z (digits_value (d1 ++ d2))
  / inject_Z (10 ^ Z.of_nat (if dot then List.length d2 else 0%nat)).
Definition real_double (d1 : str) (dot : bool) (d2 : str) : pyfloat :=
  float_of_Q false (real_value d1 dot d2).

Record pads := mkPads { p0 : str; p1 : str; p2 : str; p3 : str; p4 : str;
                        p5 : str; p6 : str; p7 : str; p8 : str; p9 : str }.

Definition pads_ok (p : pads) : Prop :=
  Forall wsp [p0 p; p1 p; p2 p; p3 p; p4 p; p5 p; p6 p; p7 p; p8 p; p9 p].

(** [p0 x1 p1 , p2 y1 p3 -> p4 x2 p5 , p6 y2 [p7 , p8 d] p9] *)
Definition drag_text (p : pads) (t1 t2 t3 t4 : str) (dur : option str) : str :=
  p0 p ++ t1 ++ p1 p ++ [","%char] ++ p2 p ++ t2 ++ p3 p ++ ["-"%char] ++ [">"%char]
  ++ p4 p ++ t3 ++ p5 p ++ [","%char] ++ p6 p ++ t4
  ++ match dur with
     | Some d => p7 p ++ [","%char] ++ p8 p ++ d
     | None => []
     end
  ++ p9 p.

Definition int_ok (ds : str) : Prop := ds <> [] /\ digitsp ds.

Definition dur_ok (dur : option (str * bool * str)) : Prop :=
  match dur with
  | Some (d1, _, d2) => digitsp d1 /\ int_ok d2
  | None => True
  end.

Definition dur_text (dur : option (str * bool * str)) : option str :=
  option_map (fun '(d1, dot, d2) => real_token d1 dot d2) dur.
Definition dur_double (dur : option (str * bool * str)) : option pyfloat :=
  option_map (fun '(d1, dot, d2) => real_double d1 dot d2) dur.





(** ** The loop when every call returns *)

Fixpoint run_trace (dd bd : pyfloat) (steps : list step) (cx cy : Z) (si : nat)
  : list event :=
  match steps with
  | [] => []
  | SSleep x :: rest => EPrint (NSleep x) :: ESleep x :: run_trace dd bd rest cx cy si
  | SDrag sx sy ex ey dur :: rest =>
      let duration := match dur with Some d => d | None => dd end in
      (if negb (Z.eqb sx cx && Z.eqb sy cy)
       then [EPrint (NWarn sx sy cx cy); EMoveTo sx sy (FFin 0) Linear] else [])
      ++ [EPrint (NMove (S si) sx sy ex ey duration); EMoveTo ex ey duration EaseInOutQuad]
      ++ (if gt0 bd then [ESleep bd] else [])
      ++ run_trace dd bd rest ex ey (S si)
  end.

Definition move_numbers (t : list event) : list nat :=
  flat_map (fun e => match e with EPrint (NMove k _ _ _ _ _) => [k] | _ => [] end) t.

Definition count_drags (steps : list step) : nat :=
  List.length (filter (fun s => negb (is_sleep_step s)) steps).

Definition timed_moves (t : list event) : list (Z * Z * pyfloat) :=
  flat_map (fun e => match e with EMoveTo x y d EaseInOutQuad => [(x, y, d)] | _ => [] end) t.

Definition drag_targets (dd : pyfloat) (steps : list step) : list (Z * Z * pyfloat) :=
  flat_map (fun s => match s with
                     | SDrag _ _ ex ey dur => [(ex, ey, match dur with Some d => d | None => dd end)]
                     | SSleep _ => []
                     end) steps.

Definition sleep_calls (t : list event) : list pyfloat :=
  flat_map (fun e => match e with ESleep x => [x] | _ => [] end) t.

Fixpoint sleep_args (bd : pyfloat) (steps : list step) : list pyfloat :=
  match steps with
  | [] => []
  | SSleep x :: rest => x :: sleep_args bd rest
  | SDrag _ _ _ _ _ :: rest => (if gt0 bd then [bd] else []) ++ sleep_args bd rest
  end.

Fixpoint first_error (xs : list pyfloat) : option exn :=
  match xs with
  | [] => None
  | x :: rest => match sleep_error x with Some e => Some e | None => first_error rest end
  end.

Fixpoint last_move (t : list event) : option (Z * Z) :=
  match t with
  | [] => None
  | e :: t' =>
      match last_move t' with
      | Some p => Some p
      | None => match e with EMoveTo x y _ _ => Some (x, y) | _ => None end
      end
  end.

Fixpoint last_drag_end (steps : list step) : option (Z * Z) :=
  match steps with
  | [] => None
  | s :: rest =>
      match last_drag_end rest with
      | Some p => Some p
      | None => match s with SDrag _ _ ex ey _ => Some (ex, ey) | SSleep _ => None end
      end
  end.

(** ** [main], after [ap.parse_args()] *)

Record args := mkArgs { file : str; default_duration : pyfloat; button : str;
                        start_delay : pyfloat; between_delay : pyfloat }.

(** What [main] prints besides what [run_single_hold] prints. *)
Inductive main_notice :=
| MBanner                               (* === drag mouse === *)
| MFailsafeHint                         (* Fling the mouse to ANY screen corner ... *)
| MReading (path : str)                 (* Reading steps from: ... *)
| MError (msg : str)                    (* Error: e *)
| MLoaded (n : nat) (delay : pyfloat)   (* Loaded n step(s). Starting in ... *)
| MDone                                 (* Done. *)
| MAbortFailSafe                        (* Aborted by moving the mouse ... *)
| MAbortUser.                           (* Aborted by user (Ctrl+C). *)

Inductive out_line := MN (n : main_notice) | ME (e : event).

(** How the program ends: [main] returns, [sys.exit(code)], or an exception
    leaves [main]. *)
Inductive outcome := Returned | Exited (code : nat) | Raised (e : exn).

(** How reading the file can end early: [open] or a later read raises an
    exception [main] catches ([OSError], [UnicodeDecodeError]), with its
    message; or the user presses Ctrl+C while the read blocks (a pipe, a
    terminal), and [KeyboardInterrupt] is raised. *)
Inductive read_failure := ReadError (msg : str) | ReadInterrupt.

(** What [open(path)] and [for raw in f] deliver: the lines read, in order,
    then possibly the failure that ends the reading. *)
Record file_input := mkInput { lines_read : list str; read_end : option read_failure }.

Inductive read_outcome :=
| ReadFailed (msg : str)        (* an [Exception], caught by [main] *)
| ReadInterrupted               (* [KeyboardInterrupt], not caught *)
| ReadOk (steps : list step).

(** [parse_file(args.file)]: the lines are parsed as they are read, so the
    [ValueError] of a line delivered comes before a failure of a later
    read. *)
Definition read_steps (a : args) (f : file_input) : read_outcome :=
  match parse_file (file a) (lines_read f) with
  | inl msg => ReadFailed msg
  | inr steps =>
      match read_end f with
      | None => ReadOk steps
      | Some (ReadError msg) => ReadFailed msg
      | Some ReadInterrupt => ReadInterrupted
      end
  end.

Definition main (raises : nat -> option exn) (a : args) (f : file_input)
  : list out_line * outcome :=
  let head := [MN MBanner; MN MFailsafeHint; MN (MReading (file a))] in
  match read_steps a f with
  | ReadFailed msg => (head ++ [MN (MError msg)], Exited 1)
  | ReadInterrupted => (head, Raised ExnInterrupt)
  | ReadOk steps =>
      let loaded := MN (MLoaded (List.length steps) (start_delay a)) in
      match sleep raises (start_delay a) init with
      | (s1, inl e) => (head ++ loaded :: map ME (trace s1), Raised e)
      | (s1, inr _) =>
          match run_single_hold raises steps (default_duration a) (button a)
                  (between_delay a) s1 with
          | (s2, inr _) => (head ++ loaded :: map ME (trace s2) ++ [MN MDone], Returned)
          | (s2, inl ExnFailSafe) =>
              (head ++ loaded :: map ME (trace s2) ++ [MN MAbortFailSafe], Returned)
          | (s2, inl ExnInterrupt) =>
              (head ++ loaded :: map ME (trace s2) ++ [MN MAbortUser], Returned)
          | (s2, inl e) => (head ++ loaded :: map ME (trace s2), Raised e)
          end
      end
  end.

(** Line 58: the condition under which a line is skipped. *)
Definition skip_line (raw : str) : bool :=
  let line := strip raw in
  (match line with [] => true | _ => false end) || startswith line (lit "#").



(** The three lines [main] prints before reading the file. *)
Definition main_head (a : args) : list out_line :=
  [MN MBanner; MN MFailsafeHint; MN (MReading (file a))].

(** Sample inputs. *)
Definition ex_steps : list step :=
  [SDrag 0 0 5 5 None; SSleep (FFin 1); SDrag 7 7 9 9 (Some (FFin 2))].

Definition ex_run : state * (exn + unit) :=
  run_single_hold no_exn ex_steps (FFin 1) (lit "left") (FFin (1 # 2)) init.

Definition ex_args : args :=
  mkArgs (lit "motions.txt") (FFin (3 # 2)) (lit "left") (FFin 2) (FFin 0).


(** ** The loop body of [parse_file] on any Unicode text

    A [str] above holds code points 0..255 (Latin-1), on which the
    builtins are written out by hand.  Here a line is a list of code points
    of any value, and the character properties the code depends on
    ([str.isspace], which is also [str.strip], [str.split] and the [\s] of
    a [str] pattern; [str.isdecimal], which is the [\d] of a [str] pattern;
    [str.upper]) are the tables of the Unicode 14.0 database of CPython
    3.11. *)

Definition ustr := list N.

Definition ulit (s : string) : ustr := map N_of_ascii (list_ascii_of_string s).

(** The code points [c] with [chr(c).isspace()]. *)
Definition u_space_table : list N :=
  [9; 10; 11; 12; 13; 28; 29; 30; 31; 32; 133; 160; 5760; 8192; 8193; 8194;
   8195; 8196; 8197; 8198; 8199; 8200; 8201; 8202; 8232; 8233; 8239; 8287;
   12288]%N.

(** The code points of value 0 among the decimal digits ([unicodedata.decimal]);
    each begins a run of ten, of values 0 to 9. *)
Definition u_decimal_zeros : list N :=
  [48; 1632; 1776; 1984; 2406; 2534; 2662; 2790; 2918; 3046; 3174; 3302; 3430;
   3558; 3664; 3792; 3872; 4160; 4240; 6112; 6160; 6470; 6608; 6784; 6800;
   6992; 7088; 7232; 7248; 42528; 43216; 43264; 43472; 43504; 43600; 44016;
   65296; 66720; 68912; 69734; 69872; 69942; 70096; 70384; 70736; 70864;
   71248; 71360; 71472; 71904; 72016; 72784; 73040; 73120; 92768; 92864;
   93008; 120782; 120792; 120802; 120812; 120822; 123200; 123632; 125264;
   130032]%N.

(** The code points [c] with [chr(c).upper() != chr(c)], each with the code
    points of [chr(c).upper()]. *)
Definition u_upper_table : list (N * list N) :=
  [(97, [65]); (98, [66]); (99, [67]); (100, [68]); (101, [69]); (102, [70]);
   (103, [71]); (104, [72]); (105, [73]); (106, [74]); (107, [75]); (108,
   [76]); (109, [77]); (110, [78]); (111, [79]); (112, [80]); (113, [81]);
   (114, [82]); (115, [83]); (116, [84]); (117, [85]); (118, [86]); (119,
   [87]); (120, [88]); (121, [89]); (122, [90]); (181, [924]); (223, [83;
   83]); (224, [192]); (225, [193]); (226, [194]); (227, [195]); (228, [196]);
   (229, [197]); (230, [198]); (231, [199]); (232, [200]); (233, [201]); (234,
   [202]); (235, [203]); (236, [204]); (237, [205]); (238, [206]); (239,
   [207]); (240, [208]); (241, [209]); (242, [210]); (243, [211]); (244,
   [212]); (245, [213]); (246, [214]); (248, [216]); (249, [217]); (250,
   [218]); (251, [219]); (252, [220]); (253, [221]); (254, [222]); (255,
   [376]); (257, [256]); (259, [258]); (261, [260]); (263, [262]); (265,
   [264]); (267, [266]); (269, [268]); (271, [270]); (273, [272]); (275,
   [274]); (277, [276]); (279, [278]); (281, [280]); (283, [282]); (285,
   [284]); (287, [286]); (289, [288]); (291, [290]); (293, [292]); (295,
   [294]); (297, [296]); (299, [298]); (301, [300]); (303, [302]); (305,
   [73]); (307, [306]); (309, [308]); (311, [310]); (314, [313]); (316,
   [315]); (318, [317]); (320, [319]); (322, [321]); (324, [323]); (326,
   [325]); (328, [327]); (329, [700; 78]); (331, [330]); (333, [332]); (335,
   [334]); (337, [336]); (339, [338]); (341, [340]); (343, [342]); (345,
   [344]); (347, [346]); (349, [348]); (351, [350]); (353, [352]); (355,
   [354]); (357, [356]); (359, [358]); (361, [360]); (363, [362]); (365,
   [364]); (367, [366]); (369, [368]); (371, [370]); (373, [372]); (375,
   [374]); (378, [377]); (380, [379]); (382, [381]); (383, [83]); (384,
   [579]); (387, [386]); (389, [388]); (392, [391]); (396, [395]); (402,
   [401]); (405, [502]); (409, [408]); (410, [573]); (414, [544]); (417,
   [416]); (419, [418]); (421, [420]); (424, [423]); (429, [428]); (432,
   [431]); (436, [435]); (438, [437]); (441, [440]); (445, [444]); (447,
   [503]); (453, [452]); (454, [452]); (456, [455]); (457, [455]); (459,
   [458]); (460, [458]); (462, [461]); (464, [463]); (466, [465]); (468,
   [467]); (470, [469]); (472, [471]); (474, [473]); (476, [475]); (477,
   [398]); (479, [478]); (481, [480]); (483, [482]); (485, [484]); (487,
   [486]); (489, [488]); (491, [490]); (493, [492]); (495, [494]); (496, [74;
   780]); (498, [497]); (499, [497]); (501, [500]); (505, [504]); (507,
   [506]); (509, [508]); (511, [510]); (513, [512]); (515, [514]); (517,
   [516]); (519, [518]); (521, [520]); (523, [522]); (525, [524]); (527,
   [526]); (529, [528]); (531, [530]); (533, [532]); (535, [534]); (537,
   [536]); (539, [538]); (541, [540]); (543, [542]); (547, [546]); (549,
   [548]); (551, [550]); (553, [552]); (555, [554]); (557, [556]); (559,
   [558]); (561, [560]); (563, [562]); (572, [571]); (575, [11390]); (576,
   [11391]); (578, [577]); (583, [582]); (585, [584]); (587, [586]); (589,
   [588]); (591, [590]); (592, [11375]); (593, [11373]); (594, [11376]); (595,
   [385]); (596, [390]); (598, [393]); (599, [394]); (601, [399]); (603,
   [400]); (604, [42923]); (608, [403]); (609, [42924]); (611, [404]); (613,
   [42893]); (614, [42922]); (616, [407]); (617, [406]); (618, [42926]); (619,
   [11362]); (620, [42925]); (623, [412]); (625, [11374]); (626, [413]); (629,
   [415]); (637, [11364]); (640, [422]); (642, [42949]); (643, [425]); (647,
   [42929]); (648, [430]); (649, [580]); (650, [433]); (651, [434]); (652,
   [581]); (658, [439]); (669, [42930]); (670, [42928]); (837, [921]); (881,
   [880]); (883, [882]); (887, [886]); (891, [1021]); (892, [1022]); (893,
   [1023]); (912, [921; 776; 769]); (940, [902]); (941, [904]); (942, [905]);
   (943, [906]); (944, [933; 776; 769]); (945, [913]); (946, [914]); (947,
   [915]); (948, [916]); (949, [917]); (950, [918]); (951, [919]); (952,
   [920]); (953, [921]); (954, [922]); (955, [923]); (956, [924]); (957,
   [925]); (958, [926]); (959, [927]); (960, [928]); (961, [929]); (962,
   [931]); (963, [931]); (964, [932]); (965, [933]); (966, [934]); (967,
   [935]); (968, [936]); (969, [937]); (970, [938]); (971, [939]); (972,
   [908]); (973, [910]); (974, [911]); (976, [914]); (977, [920]); (981,
   [934]); (982, [928]); (983, [975]); (985, [984]); (987, [986]); (989,
   [988]); (991, [990]); (993, [992]); (995, [994]); (997, [996]); (999,
   [998]); (1001, [1000]); (1003, [1002]); (1005, [1004]); (1007, [1006]);
   (1008, [922]); (1009, [929]); (1010, [1017]); (1011, [895]); (1013, [917]);
   (1016, [1015]); (1019, [1018]); (1072, [1040]); (1073, [1041]); (1074,
   [1042]); (1075, [1043]); (1076, [1044]); (1077, [1045]); (1078, [1046]);
   (1079, [1047]); (1080, [1048]); (1081, [1049]); (1082, [1050]); (1083,
   [1051]); (1084, [1052]); (1085, [1053]); (1086, [1054]); (1087, [1055]);
   (1088, [1056]); (1089, [1057]); (1090, [1058]); (1091, [1059]); (1092,
   [1060]); (1093, [1061]); (1094, [1062]); (1095, [1063]); (1096, [1064]);
   (1097, [1065]); (1098, [1066]); (1099, [1067]); (1100, [1068]); (1101,
   [1069]); (1102, [1070]); (1103, [1071]); (1104, [1024]); (1105, [1025]);
   (1106, [1026]); (1107, [1027]); (1108, [1028]); (1109, [1029]); (1110,
   [1030]); (1111, [1031]); (1112, [1032]); (1113, [1033]); (1114, [1034]);
   (1115, [1035]); (1116, [1036]); (1117, [1037]); (1118, [1038]); (1119,
   [1039]); (1121, [1120]); (1123, [1122]); (1125, [1124]); (1127, [1126]);
   (1129, [1128]); (1131, [1130]); (1133, [1132]); (1135, [1134]); (1137,
   [1136]); (1139, [1138]); (1141, [1140]); (1143, [1142]); (1145, [1144]);
   (1147, [1146]); (1149, [1148]); (1151, [1150]); (1153, [1152]); (1163,
   [1162]); (1165, [1164]); (1167, [1166]); (1169, [1168]); (1171, [1170]);
   (1173, [1172]); (1175, [1174]); (1177, [1176]); (1179, [1178]); (1181,
   [1180]); (1183, [1182]); (1185, [1184]); (1187, [1186]); (1189, [1188]);
   (1191, [1190]); (1193, [1192]); (1195, [1194]); (1197, [1196]); (1199,
   [1198]); (1201, [1200]); (1203, [1202]); (1205, [1204]); (1207, [1206]);
   (1209, [1208]); (1211, [1210]); (1213, [1212]); (1215, [1214]); (1218,
   [1217]); (1220, [1219]); (1222, [1221]); (1224, [1223]); (1226, [1225]);
   (1228, [1227]); (1230, [1229]); (1231, [1216]); (1233, [1232]); (1235,
   [1234]); (1237, [1236]); (1239, [1238]); (1241, [1240]); (1243, [1242]);
   (1245, [1244]); (1247, [1246]); (1249, [1248]); (1251, [1250]); (1253,
   [1252]); (1255, [1254]); (1257, [1256]); (1259, [1258]); (1261, [1260]);
   (1263, [1262]); (1265, [1264]); (1267, [1266]); (1269, [1268]); (1271,
   [1270]); (1273, [1272]); (1275, [1274]); (1277, [1276]); (1279, [1278]);
   (1281, [1280]); (1283, [1282]); (1285, [1284]); (1287, [1286]); (1289,
   [1288]); (1291, [1290]); (1293, [1292]); (1295, [1294]); (1297, [1296]);
   (1299, [1298]); (1301, [1300]); (1303, [1302]); (1305, [1304]); (1307,
   [1306]); (1309, [1308]); (1311, [1310]); (1313, [1312]); (1315, [1314]);
   (1317, [1316]); (1319, [1318]); (1321, [1320]); (1323, [1322]); (1325,
   [1324]); (1327, [1326]); (1377, [1329]); (1378, [1330]); (1379, [1331]);
   (1380, [1332]); (1381, [1333]); (1382, [1334]); (1383, [1335]); (1384,
   [1336]); (1385, [1337]); (1386, [1338]); (1387, [1339]); (1388, [1340]);
   (1389, [1341]); (1390, [1342]); (1391, [1343]); (1392, [1344]); (1393,
   [1345]); (1394, [1346]); (1395, [1347]); (1396, [1348]); (1397, [1349]);
   (1398, [1350]); (1399, [1351]); (1400, [1352]); (1401, [1353]); (1402,
   [1354]); (1403, [1355]); (1404, [1356]); (1405, [1357]); (1406, [1358]);
   (1407, [1359]); (1408, [1360]); (1409, [1361]); (1410, [1362]); (1411,
   [1363]); (1412, [1364]); (1413, [1365]); (1414, [1366]); (1415, [1333;
   1362]); (4304, [7312]); (4305, [7313]); (4306, [7314]); (4307, [7315]);
   (4308, [7316]); (4309, [7317]); (4310, [7318]); (4311, [7319]); (4312,
   [7320]); (4313, [7321]); (4314, [7322]); (4315, [7323]); (4316, [7324]);
   (4317, [7325]); (4318, [7326]); (4319, [7327]); (4320, [7328]); (4321,
   [7329]); (4322, [7330]); (4323, [7331]); (4324, [7332]); (4325, [7333]);
   (4326, [7334]); (4327, [7335]); (4328, [7336]); (4329, [7337]); (4330,
   [7338]); (4331, [7339]); (4332, [7340]); (4333, [7341]); (4334, [7342]);
   (4335, [7343]); (4336, [7344]); (4337, [7345]); (4338, [7346]); (4339,
   [7347]); (4340, [7348]); (4341, [7349]); (4342, [7350]); (4343, [7351]);
   (4344, [7352]); (4345, [7353]); (4346, [7354]); (4349, [7357]); (4350,
   [7358]); (4351, [7359]); (5112, [5104]); (5113, [5105]); (5114, [5106]);
   (5115, [5107]); (5116, [5108]); (5117, [5109]); (7296, [1042]); (7297,
   [1044]); (7298, [1054]); (7299, [1057]); (7300, [1058]); (7301, [1058]);
   (7302, [1066]); (7303, [1122]); (7304, [42570]); (7545, [42877]); (7549,
   [11363]); (7566, [42950]); (7681, [7680]); (7683, [7682]); (7685, [7684]);
   (7687, [7686]); (7689, [7688]); (7691, [7690]); (7693, [7692]); (7695,
   [7694]); (7697, [7696]); (7699, [7698]); (7701, [7700]); (7703, [7702]);
   (7705, [7704]); (7707, [7706]); (7709, [7708]); (7711, [7710]); (7713,
   [7712]); (7715, [7714]); (7717, [7716]); (7719, [7718]); (7721, [7720]);
   (7723, [7722]); (7725, [7724]); (7727, [7726]); (7729, [7728]); (7731,
   [7730]); (7733, [7732]); (7735, [7734]); (7737, [7736]); (7739, [7738]);
   (7741, [7740]); (7743, [7742]); (7745, [7744]); (7747, [7746]); (7749,
   [7748]); (7751, [7750]); (7753, [7752]); (7755, [7754]); (7757, [7756]);
   (7759, [7758]); (7761, [7760]); (7763, [7762]); (7765, [7764]); (7767,
   [7766]); (7769, [7768]); (7771, [7770]); (7773, [7772]); (7775, [7774]);
   (7777, [7776]); (7779, [7778]); (7781, [7780]); (7783, [7782]); (7785,
   [7784]); (7787, [7786]); (7789, [7788]); (7791, [7790]); (7793, [7792]);
   (7795, [7794]); (7797, [7796]); (7799, [7798]); (7801, [7800]); (7803,
   [7802]); (7805, [7804]); (7807, [7806]); (7809, [7808]); (7811, [7810]);
   (7813, [7812]); (7815, [7814]); (7817, [7816]); (7819, [7818]); (7821,
   [7820]); (7823, [7822]); (7825, [7824]); (7827, [7826]); (7829, [7828]);
   (7830, [72; 817]); (7831, [84; 776]); (7832, [87; 778]); (7833, [89; 778]);
   (7834, [65; 702]); (7835, [7776]); (7841, [7840]); (7843, [7842]); (7845,
   [7844]); (7847, [7846]); (7849, [7848]); (7851, [7850]); (7853, [7852]);
   (7855, [7854]); (7857, [7856]); (7859, [7858]); (7861, [7860]); (7863,
   [7862]); (7865, [7864]); (7867, [7866]); (7869, [7868]); (7871, [7870]);
   (7873, [7872]); (7875, [7874]); (7877, [7876]); (7879, [7878]); (7881,
   [7880]); (7883, [7882]); (7885, [7884]); (7887, [7886]); (7889, [7888]);
   (7891, [7890]); (7893, [7892]); (7895, [7894]); (7897, [7896]); (7899,
   [7898]); (7901, [7900]); (7903, [7902]); (7905, [7904]); (7907, [7906]);
   (7909, [7908]); (7911, [7910]); (7913, [7912]); (7915, [7914]); (7917,
   [7916]); (7919, [7918]); (7921, [7920]); (7923, [7922]); (7925, [7924]);
   (7927, [7926]); (7929, [7928]); (7931, [7930]); (7933, [7932]); (7935,
   [7934]); (7936, [7944]); (7937, [7945]); (7938, [7946]); (7939, [7947]);
   (7940, [7948]); (7941, [7949]); (7942, [7950]); (7943, [7951]); (7952,
   [7960]); (7953, [7961]); (7954, [7962]); (7955, [7963]); (7956, [7964]);
   (7957, [7965]); (7968, [7976]); (7969, [7977]); (7970, [7978]); (7971,
   [7979]); (7972, [7980]); (7973, [7981]); (7974, [7982]); (7975, [7983]);
   (7984, [7992]); (7985, [7993]); (7986, [7994]); (7987, [7995]); (7988,
   [7996]); (7989, [7997]); (7990, [7998]); (7991, [7999]); (8000, [8008]);
   (8001, [8009]); (8002, [8010]); (8003, [8011]); (8004, [8012]); (8005,
   [8013]); (8016, [933; 787]); (8017, [8025]); (8018, [933; 787; 768]);
   (8019, [8027]); (8020, [933; 787; 769]); (8021, [8029]); (8022, [933; 787;
   834]); (8023, [8031]); (8032, [8040]); (8033, [8041]); (8034, [8042]);
   (8035, [8043]); (8036, [8044]); (8037, [8045]); (8038, [8046]); (8039,
   [8047]); (8048, [8122]); (8049, [8123]); (8050, [8136]); (8051, [8137]);
   (8052, [8138]); (8053, [8139]); (8054, [8154]); (8055, [8155]); (8056,
   [8184]); (8057, [8185]); (8058, [8170]); (8059, [8171]); (8060, [8186]);
   (8061, [8187]); (8064, [7944; 921]); (8065, [7945; 921]); (8066, [7946;
   921]); (8067, [7947; 921]); (8068, [7948; 921]); (8069, [7949; 921]);
   (8070, [7950; 921]); (8071, [7951; 921]); (8072, [7944; 921]); (8073,
   [7945; 921]); (8074, [7946; 921]); (8075, [7947; 921]); (8076, [7948;
   921]); (8077, [7949; 921]); (8078, [7950; 921]); (8079, [7951; 921]);
   (8080, [7976; 921]); (8081, [7977; 921]); (8082, [7978; 921]); (8083,
   [7979; 921]); (8084, [7980; 921]); (8085, [7981; 921]); (8086, [7982;
   921]); (8087, [7983; 921]); (8088, [7976; 921]); (8089, [7977; 921]);
   (8090, [7978; 921]); (8091, [7979; 921]); (8092, [7980; 921]); (8093,
   [7981; 921]); (8094, [7982; 921]); (8095, [7983; 921]); (8096, [8040;
   921]); (8097, [8041; 921]); (8098, [8042; 921]); (8099, [8043; 921]);
   (8100, [8044; 921]); (8101, [8045; 921]); (8102, [8046; 921]); (8103,
   [8047; 921]); (8104, [8040; 921]); (8105, [8041; 921]); (8106, [8042;
   921]); (8107, [8043; 921]); (8108, [8044; 921]); (8109, [8045; 921]);
   (8110, [8046; 921]); (8111, [8047; 921]); (8112, [8120]); (8113, [8121]);
   (8114, [8122; 921]); (8115, [913; 921]); (8116, [902; 921]); (8118, [913;
   834]); (8119, [913; 834; 921]); (8124, [913; 921]); (8126, [921]); (8130,
   [8138; 921]); (8131, [919; 921]); (8132, [905; 921]); (8134, [919; 834]);
   (8135, [919; 834; 921]); (8140, [919; 921]); (8144, [8152]); (8145,
   [8153]); (8146, [921; 776; 768]); (8147, [921; 776; 769]); (8150, [921;
   834]); (8151, [921; 776; 834]); (8160, [8168]); (8161, [8169]); (8162,
   [933; 776; 768]); (8163, [933; 776; 769]); (8164, [929; 787]); (8165,
   [8172]); (8166, [933; 834]); (8167, [933; 776; 834]); (8178, [8186; 921]);
   (8179, [937; 921]); (8180, [911; 921]); (8182, [937; 834]); (8183, [937;
   834; 921]); (8188, [937; 921]); (8526, [8498]); (8560, [8544]); (8561,
   [8545]); (8562, [8546]); (8563, [8547]); (8564, [8548]); (8565, [8549]);
   (8566, [8550]); (8567, [8551]); (8568, [8552]); (8569, [8553]); (8570,
   [8554]); (8571, [8555]); (8572, [8556]); (8573, [8557]); (8574, [8558]);
   (8575, [8559]); (8580, [8579]); (9424, [9398]); (9425, [9399]); (9426,
   [9400]); (9427, [9401]); (9428, [9402]); (9429, [9403]); (9430, [9404]);
   (9431, [9405]); (9432, [9406]); (9433, [9407]); (9434, [9408]); (9435,
   [9409]); (9436, [9410]); (9437, [9411]); (9438, [9412]); (9439, [9413]);
   (9440, [9414]); (9441, [9415]); (9442, [9416]); (9443, [9417]); (9444,
   [9418]); (9445, [9419]); (9446, [9420]); (9447, [9421]); (9448, [9422]);
   (9449, [9423]); (11312, [11264]); (11313, [11265]); (11314, [11266]);
   (11315, [11267]); (11316, [11268]); (11317, [11269]); (11318, [11270]);
   (11319, [11271]); (11320, [11272]); (11321, [11273]); (11322, [11274]);
   (11323, [11275]); (11324, [11276]); (11325, [11277]); (11326, [11278]);
   (11327, [11279]); (11328, [11280]); (11329, [11281]); (11330, [11282]);
   (11331, [11283]); (11332, [11284]); (11333, [11285]); (11334, [11286]);
   (11335, [11287]); (11336, [11288]); (11337, [11289]); (11338, [11290]);
   (11339, [11291]); (11340, [11292]); (11341, [11293]); (11342, [11294]);
   (11343, [11295]); (11344, [11296]); (11345, [11297]); (11346, [11298]);
   (11347, [11299]); (11348, [11300]); (11349, [11301]); (11350, [11302]);
   (11351, [11303]); (11352, [11304]); (11353, [11305]); (11354, [11306]);
   (11355, [11307]); (11356, [11308]); (11357, [11309]); (11358, [11310]);
   (11359, [11311]); (11361, [11360]); (11365, [570]); (11366, [574]); (11368,
   [11367]); (11370, [11369]); (11372, [11371]); (11379, [11378]); (11382,
   [11381]); (11393, [11392]); (11395, [11394]); (11397, [11396]); (11399,
   [11398]); (11401, [11400]); (11403, [11402]); (11405, [11404]); (11407,
   [11406]); (11409, [11408]); (11411, [11410]); (11413, [11412]); (11415,
   [11414]); (11417, [11416]); (11419, [11418]); (11421, [11420]); (11423,
   [11422]); (11425, [11424]); (11427, [11426]); (11429, [11428]); (11431,
   [11430]); (11433, [11432]); (11435, [11434]); (11437, [11436]); (11439,
   [11438]); (11441, [11440]); (11443, [11442]); (11445, [11444]); (11447,
   [11446]); (11449, [11448]); (11451, [11450]); (11453, [11452]); (11455,
   [11454]); (11457, [11456]); (11459, [11458]); (11461, [11460]); (11463,
   [11462]); (11465, [11464]); (11467, [11466]); (11469, [11468]); (11471,
   [11470]); (11473, [11472]); (11475, [11474]); (11477, [11476]); (11479,
   [11478]); (11481, [11480]); (11483, [11482]); (11485, [11484]); (11487,
   [11486]); (11489, [11488]); (11491, [11490]); (11500, [11499]); (11502,
   [11501]); (11507, [11506]); (11520, [4256]); (11521, [4257]); (11522,
   [4258]); (11523, [4259]); (11524, [4260]); (11525, [4261]); (11526,
   [4262]); (11527, [4263]); (11528, [4264]); (11529, [4265]); (11530,
   [4266]); (11531, [4267]); (11532, [4268]); (11533, [4269]); (11534,
   [4270]); (11535, [4271]); (11536, [4272]); (11537, [4273]); (11538,
   [4274]); (11539, [4275]); (11540, [4276]); (11541, [4277]); (11542,
   [4278]); (11543, [4279]); (11544, [4280]); (11545, [4281]); (11546,
   [4282]); (11547, [4283]); (11548, [4284]); (11549, [4285]); (11550,
   [4286]); (11551, [4287]); (11552, [4288]); (11553, [4289]); (11554,
   [4290]); (11555, [4291]); (11556, [4292]); (11557, [4293]); (11559,
   [4295]); (11565, [4301]); (42561, [42560]); (42563, [42562]); (42565,
   [42564]); (42567, [42566]); (42569, [42568]); (42571, [42570]); (42573,
   [42572]); (42575, [42574]); (42577, [42576]); (42579, [42578]); (42581,
   [42580]); (42583, [42582]); (42585, [42584]); (42587, [42586]); (42589,
   [42588]); (42591, [42590]); (42593, [42592]); (42595, [42594]); (42597,
   [42596]); (42599, [42598]); (42601, [42600]); (42603, [42602]); (42605,
   [42604]); (42625, [42624]); (42627, [42626]); (42629, [42628]); (42631,
   [42630]); (42633, [42632]); (42635, [42634]); (42637, [42636]); (42639,
   [42638]); (42641, [42640]); (42643, [42642]); (42645, [42644]); (42647,
   [42646]); (42649, [42648]); (42651, [42650]); (42787, [42786]); (42789,
   [42788]); (42791, [42790]); (42793, [42792]); (42795, [42794]); (42797,
   [42796]); (42799, [42798]); (42803, [42802]); (42805, [42804]); (42807,
   [42806]); (42809, [42808]); (42811, [42810]); (42813, [42812]); (42815,
   [42814]); (42817, [42816]); (42819, [42818]); (42821, [42820]); (42823,
   [42822]); (42825, [42824]); (42827, [42826]); (42829, [42828]); (42831,
   [42830]); (42833, [42832]); (42835, [42834]); (42837, [42836]); (42839,
   [42838]); (42841, [42840]); (42843, [42842]); (42845, [42844]); (42847,
   [42846]); (42849, [42848]); (42851, [42850]); (42853, [42852]); (42855,
   [42854]); (42857, [42856]); (42859, [42858]); (42861, [42860]); (42863,
   [42862]); (42874, [42873]); (42876, [42875]); (42879, [42878]); (42881,
   [42880]); (42883, [42882]); (42885, [42884]); (42887, [42886]); (42892,
   [42891]); (42897, [42896]); (42899, [42898]); (42900, [42948]); (42903,
   [42902]); (42905, [42904]); (42907, [42906]); (42909, [42908]); (42911,
   [42910]); (42913, [42912]); (42915, [42914]); (42917, [42916]); (42919,
   [42918]); (42921, [42920]); (42933, [42932]); (42935, [42934]); (42937,
   [42936]); (42939, [42938]); (42941, [42940]); (42943, [42942]); (42945,
   [42944]); (42947, [42946]); (42952, [42951]); (42954, [42953]); (42961,
   [42960]); (42967, [42966]); (42969, [42968]); (42998, [42997]); (43859,
   [42931]); (43888, [5024]); (43889, [5025]); (43890, [5026]); (43891,
   [5027]); (43892, [5028]); (43893, [5029]); (43894, [5030]); (43895,
   [5031]); (43896, [5032]); (43897, [5033]); (43898, [5034]); (43899,
   [5035]); (43900, [5036]); (43901, [5037]); (43902, [5038]); (43903,
   [5039]); (43904, [5040]); (43905, [5041]); (43906, [5042]); (43907,
   [5043]); (43908, [5044]); (43909, [5045]); (43910, [5046]); (43911,
   [5047]); (43912, [5048]); (43913, [5049]); (43914, [5050]); (43915,
   [5051]); (43916, [5052]); (43917, [5053]); (43918, [5054]); (43919,
   [5055]); (43920, [5056]); (43921, [5057]); (43922, [5058]); (43923,
   [5059]); (43924, [5060]); (43925, [5061]); (43926, [5062]); (43927,
   [5063]); (43928, [5064]); (43929, [5065]); (43930, [5066]); (43931,
   [5067]); (43932, [5068]); (43933, [5069]); (43934, [5070]); (43935,
   [5071]); (43936, [5072]); (43937, [5073]); (43938, [5074]); (43939,
   [5075]); (43940, [5076]); (43941, [5077]); (43942, [5078]); (43943,
   [5079]); (43944, [5080]); (43945, [5081]); (43946, [5082]); (43947,
   [5083]); (43948, [5084]); (43949, [5085]); (43950, [5086]); (43951,
   [5087]); (43952, [5088]); (43953, [5089]); (43954, [5090]); (43955,
   [5091]); (43956, [5092]); (43957, [5093]); (43958, [5094]); (43959,
   [5095]); (43960, [5096]); (43961, [5097]); (43962, [5098]); (43963,
   [5099]); (43964, [5100]); (43965, [5101]); (43966, [5102]); (43967,
   [5103]); (64256, [70; 70]); (64257, [70; 73]); (64258, [70; 76]); (64259,
   [70; 70; 73]); (64260, [70; 70; 76]); (64261, [83; 84]); (64262, [83; 84]);
   (64275, [1348; 1350]); (64276, [1348; 1333]); (64277, [1348; 1339]);
   (64278, [1358; 1350]); (64279, [1348; 1341]); (65345, [65313]); (65346,
   [65314]); (65347, [65315]); (65348, [65316]); (65349, [65317]); (65350,
   [65318]); (65351, [65319]); (65352, [65320]); (65353, [65321]); (65354,
   [65322]); (65355, [65323]); (65356, [65324]); (65357, [65325]); (65358,
   [65326]); (65359, [65327]); (65360, [65328]); (65361, [65329]); (65362,
   [65330]); (65363, [65331]); (65364, [65332]); (65365, [65333]); (65366,
   [65334]); (65367, [65335]); (65368, [65336]); (65369, [65337]); (65370,
   [65338]); (66600, [66560]); (66601, [66561]); (66602, [66562]); (66603,
   [66563]); (66604, [66564]); (66605, [66565]); (66606, [66566]); (66607,
   [66567]); (66608, [66568]); (66609, [66569]); (66610, [66570]); (66611,
   [66571]); (66612, [66572]); (66613, [66573]); (66614, [66574]); (66615,
   [66575]); (66616, [66576]); (66617, [66577]); (66618, [66578]); (66619,
   [66579]); (66620, [66580]); (66621, [66581]); (66622, [66582]); (66623,
   [66583]); (66624, [66584]); (66625, [66585]); (66626, [66586]); (66627,
   [66587]); (66628, [66588]); (66629, [66589]); (66630, [66590]); (66631,
   [66591]); (66632, [66592]); (66633, [66593]); (66634, [66594]); (66635,
   [66595]); (66636, [66596]); (66637, [66597]); (66638, [66598]); (66639,
   [66599]); (66776, [66736]); (66777, [66737]); (66778, [66738]); (66779,
   [66739]); (66780, [66740]); (66781, [66741]); (66782, [66742]); (66783,
   [66743]); (66784, [66744]); (66785, [66745]); (66786, [66746]); (66787,
   [66747]); (66788, [66748]); (66789, [66749]); (66790, [66750]); (66791,
   [66751]); (66792, [66752]); (66793, [66753]); (66794, [66754]); (66795,
   [66755]); (66796, [66756]); (66797, [66757]); (66798, [66758]); (66799,
   [66759]); (66800, [66760]); (66801, [66761]); (66802, [66762]); (66803,
   [66763]); (66804, [66764]); (66805, [66765]); (66806, [66766]); (66807,
   [66767]); (66808, [66768]); (66809, [66769]); (66810, [66770]); (66811,
   [66771]); (66967, [66928]); (66968, [66929]); (66969, [66930]); (66970,
   [66931]); (66971, [66932]); (66972, [66933]); (66973, [66934]); (66974,
   [66935]); (66975, [66936]); (66976, [66937]); (66977, [66938]); (66979,
   [66940]); (66980, [66941]); (66981, [66942]); (66982, [66943]); (66983,
   [66944]); (66984, [66945]); (66985, [66946]); (66986, [66947]); (66987,
   [66948]); (66988, [66949]); (66989, [66950]); (66990, [66951]); (66991,
   [66952]); (66992, [66953]); (66993, [66954]); (66995, [66956]); (66996,
   [66957]); (66997, [66958]); (66998, [66959]); (66999, [66960]); (67000,
   [66961]); (67001, [66962]); (67003, [66964]); (67004, [66965]); (68800,
   [68736]); (68801, [68737]); (68802, [68738]); (68803, [68739]); (68804,
   [68740]); (68805, [68741]); (68806, [68742]); (68807, [68743]); (68808,
   [68744]); (68809, [68745]); (68810, [68746]); (68811, [68747]); (68812,
   [68748]); (68813, [68749]); (68814, [68750]); (68815, [68751]); (68816,
   [68752]); (68817, [68753]); (68818, [68754]); (68819, [68755]); (68820,
   [68756]); (68821, [68757]); (68822, [68758]); (68823, [68759]); (68824,
   [68760]); (68825, [68761]); (68826, [68762]); (68827, [68763]); (68828,
   [68764]); (68829, [68765]); (68830, [68766]); (68831, [68767]); (68832,
   [68768]); (68833, [68769]); (68834, [68770]); (68835, [68771]); (68836,
   [68772]); (68837, [68773]); (68838, [68774]); (68839, [68775]); (68840,
   [68776]); (68841, [68777]); (68842, [68778]); (68843, [68779]); (68844,
   [68780]); (68845, [68781]); (68846, [68782]); (68847, [68783]); (68848,
   [68784]); (68849, [68785]); (68850, [68786]); (71872, [71840]); (71873,
   [71841]); (71874, [71842]); (71875, [71843]); (71876, [71844]); (71877,
   [71845]); (71878, [71846]); (71879, [71847]); (71880, [71848]); (71881,
   [71849]); (71882, [71850]); (71883, [71851]); (71884, [71852]); (71885,
   [71853]); (71886, [71854]); (71887, [71855]); (71888, [71856]); (71889,
   [71857]); (71890, [71858]); (71891, [71859]); (71892, [71860]); (71893,
   [71861]); (71894, [71862]); (71895, [71863]); (71896, [71864]); (71897,
   [71865]); (71898, [71866]); (71899, [71867]); (71900, [71868]); (71901,
   [71869]); (71902, [71870]); (71903, [71871]); (93792, [93760]); (93793,
   [93761]); (93794, [93762]); (93795, [93763]); (93796, [93764]); (93797,
   [93765]); (93798, [93766]); (93799, [93767]); (93800, [93768]); (93801,
   [93769]); (93802, [93770]); (93803, [93771]); (93804, [93772]); (93805,
   [93773]); (93806, [93774]); (93807, [93775]); (93808, [93776]); (93809,
   [93777]); (93810, [93778]); (93811, [93779]); (93812, [93780]); (93813,
   [93781]); (93814, [93782]); (93815, [93783]); (93816, [93784]); (93817,
   [93785]); (93818, [93786]); (93819, [93787]); (93820, [93788]); (93821,
   [93789]); (93822, [93790]); (93823, [93791]); (125218, [125184]); (125219,
   [125185]); (125220, [125186]); (125221, [125187]); (125222, [125188]);
   (125223, [125189]); (125224, [125190]); (125225, [125191]); (125226,
   [125192]); (125227, [125193]); (125228, [125194]); (125229, [125195]);
   (125230, [125196]); (125231, [125197]); (125232, [125198]); (125233,
   [125199]); (125234, [125200]); (125235, [125201]); (125236, [125202]);
   (125237, [125203]); (125238, [125204]); (125239, [125205]); (125240,
   [125206]); (125241, [125207]); (125242, [125208]); (125243, [125209]);
   (125244, [125210]); (125245, [125211]); (125246, [125212]); (125247,
   [125213]); (125248, [125214]); (125249, [125215]); (125250, [125216]);
   (125251, [125217])]%N.

Definition u_is_space (c : N) : bool := existsb (N.eqb c) u_space_table.

(** [unicodedata.decimal(chr(c))], when defined. *)
Definition u_decimal (c : N) : option N :=
  match find (fun z => (z <=? c) && (c <? z + 10))%N u_decimal_zeros with
  | Some z => Some (c - z)%N
  | None => None
  end.

(** [chr(c).isdecimal()], the [\d] of a [str] pattern. *)
Definition u_is_decimal (c : N) : bool :=
  match u_decimal c with Some _ => true | None => false end.

Definition u_upper_char (c : N) : list N :=
  match find (fun p => N.eqb (fst p) c) u_upper_table with
  | Some (_, u) => u
  | None => [c]
  end.

(** [s.upper()] *)
Definition u_upper (s : ustr) : ustr := flat_map u_upper_char s.

(** [s.startswith(p)] *)
Fixpoint u_startswith (s p : ustr) : bool :=
  match p, s with
  | [], _ => true
  | c :: p', d :: s' => N.eqb c d && u_startswith s' p'
  | _ :: _, [] => false
  end.

Fixpoint u_lstrip (s : ustr) : ustr :=
  match s with
  | c :: s' => if u_is_space c then u_lstrip s' else s
  | [] => []
  end.

(** [s.strip()] *)
Definition u_strip (s : ustr) : ustr := rev (u_lstrip (rev (u_lstrip s))).

Fixpoint u_split_aux (s : ustr) (cur : ustr) : list ustr :=
  match s with
  | [] => match cur with [] => [] | _ => [rev cur] end
  | c :: s' =>
      if u_is_space c then
        match cur with
        | [] => u_split_aux s' []
        | _ => rev cur :: u_split_aux s' []
        end
      else u_split_aux s' (c :: cur)
  end.

(** [s.split()] *)
Definition u_split (s : ustr) : list ustr := u_split_aux s [].

(** [_PyUnicode_TransformDecimalAndSpaceToASCII], which [int] and [float]
    apply to a [str] before reading it: a code point below 127 is kept, a
    whitespace becomes a space, a decimal digit the ASCII digit of its
    value, and any other code point becomes '?', where the text is cut. *)
Fixpoint u_transform (s : ustr) : str :=
  match s with
  | [] => []
  | c :: s' =>
      if (c <? 127)%N then ascii_of_N c :: u_transform s'
      else if u_is_space c then " "%char :: u_transform s'
      else
        match u_decimal c with
        | Some d => ascii_of_N (48 + d) :: u_transform s'
        | None => ["?"%char]
        end
  end.

(** [int(s)] and [float(s)]: the text above is ASCII, read as in
    [py_int] and [py_float]. *)
Definition u_int (s : ustr) : option Z := py_int (u_transform s).
Definition u_float (s : ustr) : option pyfloat := py_float (u_transform s).

(** The pattern and matcher of [re_match], over code points. *)
Inductive uregex :=
| UEps
| UBol
| UEol
| UChar (c : N)
| UStar (p : N -> bool)
| UPlus (p : N -> bool)
| UOpt (r : uregex)
| USeq (r1 r2 : uregex)
| UGroup (n : nat) (r : uregex).

Definition ucaps := list (nat * ustr).

Fixpoint ugroup (n : nat) (cs : ucaps) : option ustr :=
  match cs with
  | [] => None
  | (m, v) :: cs' => if Nat.eqb n m then Some v else ugroup n cs'
  end.

Definition ucont := ustr -> ucaps -> option ucaps.

Fixpoint ustar (p : N -> bool) (s : ustr) (cs : ucaps) (k : ucont) : option ucaps :=
  match s with
  | d :: s' =>
      if p d then
        match ustar p s' cs k with
        | Some x => Some x
        | None => k s cs
        end
      else k s cs
  | [] => k s cs
  end.

Fixpoint umt (r : uregex) (s : ustr) (cs : ucaps) (k : ucont) : option ucaps :=
  match r with
  | UEps => k s cs
  | UBol => k s cs
  | UEol =>
      match s with
      | [] => k s cs
      | [c] => if N.eqb c 10 then k s cs else None
      | _ => None
      end
  | UChar c =>
      match s with
      | d :: s' => if N.eqb c d then k s' cs else None
      | [] => None
      end
  | UStar p => ustar p s cs k
  | UPlus p =>
      match s with
      | d :: s' => if p d then ustar p s' cs k else None
      | [] => None
      end
  | UOpt r1 =>
      match umt r1 s cs k with
      | Some x => Some x
      | None => k s cs
      end
  | USeq r1 r2 => umt r1 s cs (fun s' cs' => umt r2 s' cs' k)
  | UGroup n r1 =>
      umt r1 s cs (fun s' cs' =>
        k s' ((n, firstn (List.length s - List.length s') s) :: cs'))
  end.

Definition u_re_match (r : uregex) (s : ustr) : option ucaps :=
  umt r s [] (fun _ cs => Some cs).

Definition useqs (rs : list uregex) : uregex := fold_right USeq UEps rs.

(** [[0-9]] *)
Definition u_ascii_digit (c : N) : bool := ((48 <=? c) && (c <=? 57))%N.

Definition u_ws := UStar u_is_space.                               (* \s* *)
Definition u_int_re := USeq (UOpt (UChar 45)) (UPlus u_is_decimal).  (* -?\d+ *)
(** [[0-9]*\.?[0-9]+] *)
Definition u_dur_re := useqs [UStar u_ascii_digit; UOpt (UChar 46); UPlus u_ascii_digit].

(** [drag_line_re]; 44, 45, 62 are ',', '-', '>'. *)
Definition u_drag_line_re : uregex :=
  useqs [UBol; u_ws; UGroup 1 u_int_re; u_ws; UChar 44; u_ws; UGroup 2 u_int_re; u_ws;
         UChar 45; UChar 62; u_ws; UGroup 3 u_int_re; u_ws; UChar 44; u_ws;
         UGroup 4 u_int_re;
         UOpt (useqs [u_ws; UChar 44; u_ws; UGroup 5 u_dur_re]);
         u_ws; UEol].

Inductive u_perr :=
| UPSleepArity (line : ustr)
| UPSleepValue (tok : ustr)
| UPInvalid (line : ustr)
| UPIntConv (tok : ustr)
| UPFloatConv (tok : ustr).

Inductive u_line_result :=
| ULSkip
| ULStep (s : step)
| ULErr (e : u_perr).

Definition u_opt_str (o : option ustr) : ustr :=
  match o with Some v => v | None => [] end.

(** Lines 73-76. *)
Definition u_drag_of_match (m : ucaps) : u_line_result :=
  let g n := u_opt_str (ugroup n m) in
  match u_int (g 1%nat), u_int (g 2%nat), u_int (g 3%nat), u_int (g 4%nat) with
  | Some x1, Some y1, Some x2, Some y2 =>
      match ugroup 5%nat m with
      | None => ULStep (SDrag x1 y1 x2 y2 None)
      | Some dur_str =>
          match u_float dur_str with
          | Some d => ULStep (SDrag x1 y1 x2 y2 (Some d))
          | None => ULErr (UPFloatConv dur_str)
          end
      end
  | None, _, _, _ => ULErr (UPIntConv (g 1%nat))
  | _, None, _, _ => ULErr (UPIntConv (g 2%nat))
  | _, _, None, _ => ULErr (UPIntConv (g 3%nat))
  | _, _, _, None => ULErr (UPIntConv (g 4%nat))
  end.

(** Lines 57-76, the body of the loop of [parse_file]. *)
Definition u_parse_line (raw : ustr) : u_line_result :=
  let line := u_strip raw in
  if (match line with [] => true | _ => false end) || u_startswith line (ulit "#")
  then ULSkip
  else if u_startswith (u_upper line) (ulit "SLEEP") then
    match u_split line with
    | [_; tok] =>
        match u_float tok with
        | Some seconds => ULStep (SSleep seconds)
        | None => ULErr (UPSleepValue tok)
        end
    | _ => ULErr (UPSleepArity line)
    end
  else
    match u_re_match u_drag_line_re line with
    | None => ULErr (UPInvalid line)
    | Some m => u_drag_of_match m
    end.

(** A line begins with SLEEP as [str.upper] sees it: S, s or the long s
    U+017F (upper-cased to S), then L, E, E, P in either case. *)
Definition u_sleep_prefix (l : ustr) : Prop :=
  exists c1 c2 c3 c4 c5 rest,
    l = [c1; c2; c3; c4; c5] ++ rest
    /\ In c1 [83; 115; 383]%N /\ In c2 [76; 108]%N /\ In c3 [69; 101]%N
    /\ In c4 [69; 101]%N /\ In c5 [80; 112]%N.

Definition u_is_sleep_result (r : u_line_result) : bool :=
  match r with
  | ULStep (SSleep _) | ULErr (UPSleepArity _) | ULErr (UPSleepValue _) => true
  | _ => false
  end.



(** Whether [str.upper] of [c] keeps the letters of SLEEP apart: an
    upper-case form that starts with S, L, E or P comes from that letter in
    either case (or from the long s), and is that single letter unless it
    starts with S and goes on with a letter other than L. *)
Definition upper_head_ok (c : N) (u : list N) : bool :=
  match u with
  | [] => false
  | x :: rest =>
      let single := match rest with [] => true | _ => false end in
      if (x =? 83)%N then
        (existsb (N.eqb c) [83; 115; 383]%N && single)
        || match rest with y :: _ => negb (y =? 76)%N | [] => false end
      else if (x =? 76)%N then existsb (N.eqb c) [76; 108]%N && single
      else if (x =? 69)%N then existsb (N.eqb c) [69; 101]%N && single
      else if (x =? 80)%N then existsb (N.eqb c) [80; 112]%N && single
      else true
  end.


(** * Proofs *)

(** ** Facts about strings *)

Lemma ch_eqb_spec (a b : ascii) : ch_eqb a b = true <-> a = b.
Proof. unfold ch_eqb. apply Ascii.eqb_eq. Qed.

Lemma str_eqb_spec (a b : str) : str_eqb a b = true <-> a = b.
Proof.
  revert b; induction a as [|x a IH]; intros [|y b]; simpl; try (split; congruence).
  rewrite andb_true_iff, ch_eqb_spec, IH. split.
  - intros [-> ->]; reflexivity.
  - intros H; injection H; auto.
Qed.

(** ** The executor *)



















(** C7: the example file parses to the three steps of the spec, and running
    them (default duration 1.5, left button, no between-delay, no abort)
    makes exactly these calls besides [print]: move to (-660,663), press,
    eased move to (-961,494) over 1.0s, sleep 0.1s, eased move to
    (-1260,494) over 1.0s, release; the run returns normally.  The value
    0.1 is the double [float] gives, 3602879701896397 / 2^55. *)
Theorem C7_example_trace :
  parse_file (lit "motions.txt") example_lines =
    inr [SDrag (-660) 663 (-961) 494 (Some (FFin 1)); SSleep (FFin (3602879701896397 # 36028797018963968));
         SDrag (-961) 494 (-1260) 494 (Some (FFin 1))]
  /\ let r := run_single_hold no_exn
                [SDrag (-660) 663 (-961) 494 (Some (FFin 1)); SSleep (FFin (3602879701896397 # 36028797018963968));
                 SDrag (-961) 494 (-1260) 494 (Some (FFin 1))]
                (FFin (3 # 2)) (lit "left") (FFin 0) init in
     backend_calls (trace (fst r)) =
       [EMoveTo (-660) 663 (FFin 0) Linear; EMouseDown (lit "left");
        EMoveTo (-961) 494 (FFin 1) EaseInOutQuad; ESleep (FFin (3602879701896397 # 36028797018963968));
        EMoveTo (-1260) 494 (FFin 1) EaseInOutQuad; EMouseUp (lit "left")]
     /\ snd r = inr tt.
Proof. split; [vm_compute; reflexivity|split; vm_compute; reflexivity]. Qed.



(** ** The SLEEP branch *)

Ltac all_chars c := destruct c as [[] [] [] [] [] [] [] []]; reflexivity.

Lemma upper_S c : ch_eqb "S" (ascii_upper c) = ch_eqb c "S" || ch_eqb c "s".
Proof. all_chars c. Qed.
Lemma upper_L c : ch_eqb "L" (ascii_upper c) = ch_eqb c "L" || ch_eqb c "l".
Proof. all_chars c. Qed.
Lemma upper_E c : ch_eqb "E" (ascii_upper c) = ch_eqb c "E" || ch_eqb c "e".
Proof. all_chars c. Qed.
Lemma upper_P c : ch_eqb "P" (ascii_upper c) = ch_eqb c "P" || ch_eqb c "p".
Proof. all_chars c. Qed.

Lemma orb_ch_eqb c a b : ch_eqb c a || ch_eqb c b = true <-> c = a \/ c = b.
Proof. rewrite orb_true_iff, !ch_eqb_spec; tauto. Qed.

Lemma startswith_upper_sleep l :
  startswith (upper l) (lit "SLEEP") = true <-> sleep_prefix l.
Proof.
  split.
  - intros H.
    destruct l as [|c1 [|c2 [|c3 [|c4 [|c5 rest]]]]];
      cbn [startswith upper map lit list_ascii_of_string] in H;
      rewrite ?andb_false_r in H; try discriminate.
    rewrite !andb_true_iff in H.
    destruct H as [H1 [H2 [H3 [H4 [H5 _]]]]].
    rewrite upper_S, orb_ch_eqb in H1; rewrite upper_L, orb_ch_eqb in H2;
    rewrite upper_E, orb_ch_eqb in H3; rewrite upper_E, orb_ch_eqb in H4;
    rewrite upper_P, orb_ch_eqb in H5.
    exists c1, c2, c3, c4, c5, rest; auto 7.
  - intros (c1 & c2 & c3 & c4 & c5 & rest & -> & H1 & H2 & H3 & H4 & H5).
    cbn [startswith upper map lit list_ascii_of_string app].
    rewrite upper_S, upper_L, upper_E, upper_E, upper_P.
    apply orb_ch_eqb in H1; apply orb_ch_eqb in H2; apply orb_ch_eqb in H3;
      apply orb_ch_eqb in H4; apply orb_ch_eqb in H5.
    rewrite H1, H2, H3, H4, H5; destruct rest; reflexivity.
Qed.

Lemma parse_line_sleep raw :
  sleep_prefix (strip raw) ->
  parse_line raw =
    match split (strip raw) with
    | [_; tok] =>
        match py_float tok with
        | Some seconds => LStep (SSleep seconds)
        | None => LErr (PSleepValue tok)
        end
    | _ => LErr (PSleepArity (strip raw))
    end.
Proof.
  intros H. unfold parse_line.
  assert (Hs := proj2 (startswith_upper_sleep _) H).
  destruct H as (c1 & c2 & c3 & c4 & c5 & rest & E & H1 & _).
  assert (Hh : (match strip raw with [] => true | _ => false end)
               || startswith (strip raw) (lit "#") = false)
    by (rewrite E; destruct H1; subst; reflexivity).
  rewrite Hh, Hs. reflexivity.
Qed.


Lemma strip_id s :
  (match s with c :: _ => is_space c = false | [] => True end) ->
  (match rev s with c :: _ => is_space c = false | [] => True end) ->
  strip s = s.
Proof.
  intros H1 H2. unfold strip.
  assert (E1 : lstrip s = s) by (destruct s; simpl; [|rewrite H1]; reflexivity).
  rewrite E1.
  assert (E2 : lstrip (rev s) = rev s)
    by (destruct (rev s); simpl; [|rewrite H2]; reflexivity).
  rewrite E2, rev_involutive; reflexivity.
Qed.

Lemma split_aux_word w r cur :
  no_space w = true -> split_aux (w ++ r) cur = split_aux r (rev w ++ cur).
Proof.
  revert cur; induction w as [|c w IH]; intros cur H; simpl; auto.
  simpl in H; apply andb_true_iff in H as [Hc Hw].
  apply negb_true_iff in Hc; rewrite Hc, IH by exact Hw.
  rewrite <- app_assoc; reflexivity.
Qed.

Lemma no_space_rev_head tok :
  no_space tok = true ->
  match rev tok with c :: _ => is_space c = false | [] => True end.
Proof.
  intros H. destruct (rev tok) as [|c l] eqn:E; auto.
  assert (Hin : In c tok) by (apply in_rev; rewrite E; left; reflexivity).
  unfold no_space in H; rewrite forallb_forall in H.
  apply H in Hin; apply negb_true_iff in Hin; exact Hin.
Qed.

(** C9: the SLEEP argument is handed to [float] unchanged: any
    whitespace-free token [float] accepts gives a Sleep step carrying
    [float]'s value, with no further check; so "SLEEP -5" gives
    [Sleep -5.0], and [float] accepts "1e3", "inf" and "nan". *)
Theorem C9_sleep_accepts_float tok v :
  tok <> [] -> no_space tok = true -> py_float tok = Some v ->
  parse_line (lit "SLEEP " ++ tok) = LStep (SSleep v)
  /\ parse_line (lit "SLEEP -5") = LStep (SSleep (FFin (-5)))
  /\ py_float (lit "1e3") = Some (FFin 1000)
  /\ py_float (lit "inf") = Some (FInf false)
  /\ py_float (lit "nan") = Some FNaN.
Proof.
  intros Hne Hsp Hv.
  split; [|split; [|split; [|split]]]; [|vm_compute; reflexivity ..].
  assert (Hs : strip (lit "SLEEP " ++ tok) = lit "SLEEP " ++ tok).
  { apply strip_id; [reflexivity|].
    rewrite rev_app_distr.
    pose proof (no_space_rev_head tok Hsp) as Hh.
    destruct (rev tok) eqn:E; [|exact Hh].
    apply (f_equal (@rev _)) in E; rewrite rev_involutive in E; contradiction. }
  assert (Hp : sleep_prefix (strip (lit "SLEEP " ++ tok))).
  { rewrite Hs. exists "S"%char, "L"%char, "E"%char, "E"%char, "P"%char,
      (" "%char :: tok); simpl; auto 7. }
  rewrite (parse_line_sleep _ Hp), Hs.
  replace (split (lit "SLEEP " ++ tok)) with [lit "SLEEP"; tok].
  - rewrite Hv; reflexivity.
  - unfold split. change (lit "SLEEP " ++ tok) with (lit "SLEEP" ++ " "%char :: tok).
    rewrite split_aux_word by reflexivity.
    simpl. rewrite <- (app_nil_r tok) at 2.
    rewrite split_aux_word by exact Hsp.
    rewrite app_nil_r; simpl.
    destruct (rev tok) eqn:E; [apply (f_equal (@rev _)) in E;
      rewrite rev_involutive in E; contradiction|].
    rewrite <- E, rev_involutive; reflexivity.
Qed.

Lemma C9_sleep_accepts_float_witness :
  lit "-5" <> [] /\ no_space (lit "-5") = true
  /\ py_float (lit "-5") = Some (FFin (-5))
  /\ (parse_line (lit "SLEEP " ++ lit "-5") = LStep (SSleep (FFin (-5)))
      /\ parse_line (lit "SLEEP -5") = LStep (SSleep (FFin (-5)))
      /\ py_float (lit "1e3") = Some (FFin 1000)
      /\ py_float (lit "inf") = Some (FInf false)
      /\ py_float (lit "nan") = Some FNaN).
Proof.
  split; [discriminate|]. split; [reflexivity|]. split; [vm_compute; reflexivity|].
  apply C9_sleep_accepts_float; [discriminate|reflexivity|vm_compute; reflexivity].
Defined.

(** ** Soundness of the matcher *)

Lemma firstn_app_length (w rest : str) :
  firstn (List.length (w ++ rest) - List.length rest) (w ++ rest) = w.
Proof.
  rewrite length_app, Nat.add_sub.
  rewrite firstn_app, Nat.sub_diag, firstn_O, app_nil_r, firstn_all; reflexivity.
Qed.

Lemma star_sound p s cs k res :
  star p s cs k = Some res ->
  exists w rest, s = w ++ rest /\ Forall (fun c => p c = true) w /\ k rest cs = Some res.
Proof.
  induction s as [|c s IH]; simpl; intros H.
  - exists [], []; auto.
  - destruct (p c) eqn:Hp.
    + destruct (star p s cs k) eqn:Hs.
      * injection H as <-. destruct (IH eq_refl) as (w & rest & -> & Hw & Hk).
        exists (c :: w), rest; auto.
      * exists [], (c :: s); auto.
    + exists [], (c :: s); auto.
Qed.

Theorem mt_sound r :
  forall s cs k res, mt r s cs k = Some res ->
  exists w rest cs', s = w ++ rest /\ rm r w rest cs cs' /\ k rest cs' = Some res.
Proof.
  induction r as [| | |c|p|p|r IH|r1 IH1 r2 IH2|n r IH]; simpl; intros s cs k res H.
  - exists [], s, cs; repeat split; auto; constructor.
  - exists [], s, cs; repeat split; auto; constructor.
  - destruct s as [|c [|d s']].
    + exists [], [], cs; split; auto; split; [constructor; auto|exact H].
    + destruct (ch_eqb c "010") eqn:E; [|discriminate].
      apply ch_eqb_spec in E; subst.
      exists [], ["010"%char], cs; split; auto; split; [constructor; auto|exact H].
    + discriminate.
  - destruct s as [|d s]; [discriminate|].
    destruct (ch_eqb c d) eqn:E; [|discriminate].
    apply ch_eqb_spec in E; subst.
    exists [d], s, cs; repeat split; auto; constructor.
  - destruct (star_sound p s cs k res H) as (w & rest & -> & Hw & Hk).
    exists w, rest, cs; repeat split; auto; constructor; auto.
  - destruct s as [|d s]; [discriminate|].
    destruct (p d) eqn:Hp; [|discriminate].
    destruct (star_sound p s cs k res H) as (w & rest & -> & Hw & Hk).
    exists (d :: w), rest, cs; repeat split; auto; constructor; auto.
  - destruct (mt r s cs k) eqn:E.
    + injection H as <-.
      destruct (IH s cs k c E) as (w & rest & cs' & -> & Hr & Hk).
      exists w, rest, cs'; repeat split; auto; constructor; auto.
    + exists [], s, cs; repeat split; auto; apply rm_opt_none.
  - destruct (IH1 _ _ _ _ H) as (w1 & rest1 & c1 & -> & H1 & Hk1).
    destruct (IH2 _ _ _ _ Hk1) as (w2 & rest & c2 & -> & H2 & Hk2).
    exists (w1 ++ w2), rest, c2; repeat split; auto.
    + rewrite app_assoc; reflexivity.
    + econstructor; eauto.
  - destruct (IH _ _ _ _ H) as (w & rest & cs' & -> & Hr & Hk).
    rewrite firstn_app_length in Hk.
    exists w, rest, ((n, w) :: cs'); repeat split; auto; constructor; auto.
Qed.

(** ** What a match of [drag_line_re] consists of *)

Lemma rm_seq_inv r1 r2 w rest cs cs' :
  rm (RSeq r1 r2) w rest cs cs' ->
  exists w1 w2 c1, w = w1 ++ w2 /\ rm r1 w1 (w2 ++ rest) cs c1 /\ rm r2 w2 rest c1 cs'.
Proof. intros H; inversion H; subst; eauto 7. Qed.

Lemma rm_ws_inv w rest cs cs' : rm ws w rest cs cs' -> cs' = cs /\ wsp w.
Proof. intros H; inversion H; subst; split; auto. Qed.

Lemma rm_char_inv c w rest cs cs' : rm (RChar c) w rest cs cs' -> cs' = cs /\ w = [c].
Proof. intros H; inversion H; subst; auto. Qed.

Lemma rm_eps_inv w rest cs cs' : rm REps w rest cs cs' -> cs' = cs /\ w = [].
Proof. intros H; inversion H; subst; auto. Qed.

Lemma rm_bol_inv w rest cs cs' : rm RBol w rest cs cs' -> cs' = cs /\ w = [].
Proof. intros H; inversion H; subst; auto. Qed.

Lemma rm_eol_inv w rest cs cs' :
  rm REol w rest cs cs' -> cs' = cs /\ w = [] /\ (rest = [] \/ rest = ["010"%char]).
Proof. intros H; inversion H; subst; auto. Qed.

Lemma rm_opt_inv r w rest cs cs' :
  rm (ROpt r) w rest cs cs' -> (cs' = cs /\ w = []) \/ rm r w rest cs cs'.
Proof. intros H; inversion H; subst; auto. Qed.

Lemma rm_int_inv n w rest cs cs' :
  rm (RGroup n int_re) w rest cs cs' ->
  cs' = (n, w) :: cs /\ exists neg ds, w = int_token neg ds /\ int_ok ds.
Proof.
  intros H; inversion H as [| | | | | | | | |n' r w' rest' cs0 cs1 Hr]; subst.
  unfold int_re in Hr.
  apply rm_seq_inv in Hr as (w1 & w2 & c1 & -> & Ho & Hp).
  inversion Hp; subst.
  apply rm_opt_inv in Ho as [[-> ->]|Ho].
  - split; auto. exists false, (c :: w); split; auto.
    split; [discriminate|constructor; auto].
  - apply rm_char_inv in Ho as [-> ->]. split; auto.
    exists true, (c :: w); split; auto.
    split; [discriminate|constructor; auto].
Qed.

Lemma rm_dur_inv w rest cs cs' :
  rm (RGroup 5 dur_re) w rest cs cs' ->
  cs' = (5%nat, w) :: cs
  /\ exists d1 dot d2, w = real_token d1 dot d2 /\ digitsp d1 /\ int_ok d2.
Proof.
  intros H; inversion H as [| | | | | | | | |n' r w' rest' cs0 cs1 Hr]; subst.
  unfold dur_re, seqs in Hr; simpl in Hr.
  apply rm_seq_inv in Hr as (w1 & w2 & c1 & -> & Hs & Hr).
  apply rm_seq_inv in Hr as (w3 & w4 & c2 & -> & Ho & Hr).
  apply rm_seq_inv in Hr as (w5 & w6 & c3 & -> & Hp & He).
  apply rm_eps_inv in He as [-> ->].
  inversion Hs; subst. inversion Hp; subst.
  rewrite app_nil_r.
  apply rm_opt_inv in Ho as [[-> ->]|Ho].
  - split; [reflexivity|].
    exists w1, false, (c :: w); split; [reflexivity|].
    split; auto. split; [discriminate|constructor; auto].
  - apply rm_char_inv in Ho as [-> ->]. split; [reflexivity|].
    exists w1, true, (c :: w); split; [reflexivity|].
    split; auto. split; [discriminate|constructor; auto].
Qed.

Ltac peel H w c Hr :=
  apply rm_seq_inv in H; destruct H as (w & ?rest & c & -> & Hr & H).

Lemma drag_re_decode l m :
  re_match drag_line_re l = Some m ->
  exists p n1 d1 n2 d2 n3 d3 n4 d4 dur tail,
    pads_ok p /\ int_ok d1 /\ int_ok d2 /\ int_ok d3 /\ int_ok d4 /\ dur_ok dur
    /\ (tail = [] \/ tail = ["010"%char])
    /\ l = drag_text p (int_token n1 d1) (int_token n2 d2) (int_token n3 d3)
                      (int_token n4 d4) (dur_text dur) ++ tail
    /\ group 1 m = Some (int_token n1 d1) /\ group 2 m = Some (int_token n2 d2)
    /\ group 3 m = Some (int_token n3 d3) /\ group 4 m = Some (int_token n4 d4)
    /\ group 5 m = dur_text dur.
Proof.
  unfold re_match; intros Hm.
  destruct (mt_sound _ _ _ _ _ Hm) as (w & tail & cs & -> & H & Hk).
  injection Hk as <-.
  unfold drag_line_re, seqs in H; cbn [fold_right] in H.
  peel H wb cb Hb. apply rm_bol_inv in Hb as [-> ->].
  peel H w0 c0 H0. apply rm_ws_inv in H0 as [-> Hw0].
  peel H t1 c1 H1. apply rm_int_inv in H1 as [-> (n1 & d1 & -> & Hd1)].
  peel H w1 c2 H2. apply rm_ws_inv in H2 as [-> Hw1].
  peel H k1 c3 H3. apply rm_char_inv in H3 as [-> ->].
  peel H w2 c4 H4. apply rm_ws_inv in H4 as [-> Hw2].
  peel H t2 c5 H5. apply rm_int_inv in H5 as [-> (n2 & d2 & -> & Hd2)].
  peel H w3 c6 H6. apply rm_ws_inv in H6 as [-> Hw3].
  peel H k2 c7 H7. apply rm_char_inv in H7 as [-> ->].
  peel H k3 c8 H8. apply rm_char_inv in H8 as [-> ->].
  peel H w4 c9 H9. apply rm_ws_inv in H9 as [-> Hw4].
  peel H t3 c10 H10. apply rm_int_inv in H10 as [-> (n3 & d3 & -> & Hd3)].
  peel H w5 c11 H11. apply rm_ws_inv in H11 as [-> Hw5].
  peel H k4 c12 H12. apply rm_char_inv in H12 as [-> ->].
  peel H w6 c13 H13. apply rm_ws_inv in H13 as [-> Hw6].
  peel H t4 c14 H14. apply rm_int_inv in H14 as [-> (n4 & d4 & -> & Hd4)].
  peel H wo c15 H15.
  peel H w9 c16 H16. apply rm_ws_inv in H16 as [-> Hw9].
  peel H we c17 H17. apply rm_eol_inv in H17 as [-> [-> Htail]].
  apply rm_eps_inv in H as [-> ->].
  simpl in Htail.
  apply rm_opt_inv in H15 as [[-> ->]|H15].
  - exists (mkPads w0 w1 w2 w3 w4 w5 w6 [] [] w9), n1, d1, n2, d2, n3, d3, n4, d4,
      None, tail.
    refine (conj _ (conj Hd1 (conj Hd2 (conj Hd3 (conj Hd4 (conj I (conj Htail
      (conj _ (conj eq_refl (conj eq_refl (conj eq_refl (conj eq_refl eq_refl)))))))))))).
    + repeat constructor; auto.
    + unfold drag_text; simpl; rewrite ?app_nil_r.
      repeat rewrite <- app_assoc; reflexivity.
  - unfold seqs in H15; cbn [fold_right] in H15.
    peel H15 w7 e1 G1. apply rm_ws_inv in G1 as [-> Hw7].
    peel H15 k5 e2 G2. apply rm_char_inv in G2 as [-> ->].
    peel H15 w8 e3 G3. apply rm_ws_inv in G3 as [-> Hw8].
    peel H15 td e4 G4. apply rm_dur_inv in G4 as [-> (a & dot & b & -> & Ha & Hb)].
    apply rm_eps_inv in H15 as [-> ->].
    exists (mkPads w0 w1 w2 w3 w4 w5 w6 w7 w8 w9), n1, d1, n2, d2, n3, d3, n4, d4,
      (Some (a, dot, b)), tail.
    refine (conj _ (conj Hd1 (conj Hd2 (conj Hd3 (conj Hd4 (conj (conj Ha Hb) (conj Htail
      (conj _ (conj eq_refl (conj eq_refl (conj eq_refl (conj eq_refl eq_refl)))))))))))).
    + repeat constructor; auto.
    + unfold drag_text; simpl; rewrite ?app_nil_r.
      repeat rewrite <- app_assoc; reflexivity.
Qed.

(** ** [int] and [float] on the tokens of the grammar *)

Lemma digit_facts c :
  is_digit c = true ->
  is_space c = false /\ ch_eqb c "_" = false /\ ch_eqb c "-" = false
  /\ ch_eqb c "+" = false /\ ch_eqb c "." = false /\ ascii_lower c = c
  /\ ch_eqb (ascii_lower c) "i" = false /\ ch_eqb (ascii_lower c) "n" = false
  /\ ch_eqb "S" (ascii_upper c) = false /\ ch_eqb "#" c = false
  /\ ch_eqb c "," = false.
Proof.
  destruct c as [[] [] [] [] [] [] [] []]; intros H; try discriminate H;
    repeat split; reflexivity.
Qed.


Lemma no_space_strip s : no_space s = true -> strip s = s.
Proof.
  intros H. apply strip_id.
  - destruct s as [|c s]; auto. simpl in H.
    apply andb_true_iff in H as [H _]; apply negb_true_iff; exact H.
  - apply no_space_rev_head; exact H.
Qed.

Lemma num_space_space c : num_space c = true -> is_space c = true.
Proof. destruct c as [[] [] [] [] [] [] [] []]; intros H; try discriminate H; reflexivity. Qed.

Lemma no_space_num_strip s : no_space s = true -> num_strip s = s.
Proof.
  intros H. unfold num_strip.
  assert (E1 : num_lstrip s = s).
  { destruct s as [|c s]; simpl; auto. simpl in H. apply andb_true_iff in H as [Hc _].
    destruct (num_space c) eqn:E; auto.
    apply num_space_space in E; rewrite E in Hc; discriminate. }
  rewrite E1.
  assert (E2 : num_lstrip (rev s) = rev s).
  { pose proof (no_space_rev_head s H) as Hh. destruct (rev s) as [|c l]; simpl; auto.
    destruct (num_space c) eqn:E; auto. apply num_space_space in E; congruence. }
  rewrite E2, rev_involutive; reflexivity.
Qed.

Lemma drop_underscores_id b s :
  Forall (fun c => ch_eqb c "_" = false) s -> drop_underscores b s = Some s.
Proof.
  revert b; induction s as [|c s IH]; intros b H; simpl; auto.
  inversion H; subst. rewrite H2, IH by auto; reflexivity.
Qed.

Lemma take_digits_app d r :
  digitsp d ->
  (match r with c :: _ => is_digit c = false | [] => True end) ->
  take_digits (d ++ r) = (d, r).
Proof.
  intros Hd Hr; induction Hd as [|c d Hc Hd IH]; simpl.
  - destruct r as [|c r]; auto. simpl. rewrite Hr; reflexivity.
  - rewrite Hc, IH; reflexivity.
Qed.

Lemma digitsp_no_space d : digitsp d -> no_space d = true.
Proof.
  intros H; induction H as [|c d Hc _ IH]; simpl; auto.
  rewrite IH, (proj1 (digit_facts c Hc)); reflexivity.
Qed.

Lemma digitsp_no_us d : digitsp d -> Forall (fun c => ch_eqb c "_" = false) d.
Proof.
  intros H; induction H as [|c d Hc _ IH]; constructor; auto.
  apply (digit_facts c Hc).
Qed.

Lemma py_int_token neg ds :
  int_ok ds -> py_int (int_token neg ds) = Some (int_value neg ds).
Proof.
  intros [Hne Hd]. unfold py_int.
  assert (Hs : no_space (int_token neg ds) = true).
  { unfold int_token; destruct neg; simpl; apply digitsp_no_space; auto. }
  rewrite no_space_num_strip by exact Hs.
  rewrite drop_underscores_id.
  2:{ unfold int_token; destruct neg; [constructor; [reflexivity|]|];
      apply digitsp_no_us; auto. }
  assert (Ht : take_sign (int_token neg ds) = (neg, ds)).
  { destruct neg; [reflexivity|]. destruct ds as [|c ds]; [contradiction|].
    inversion Hd; subst. pose proof (digit_facts c H1) as F.
    simpl; unfold int_token; simpl.
    destruct F as (_ & _ & -> & -> & _); reflexivity. }
  rewrite Ht. rewrite <- (app_nil_r ds) at 1.
  rewrite take_digits_app by auto.
  destruct ds; [contradiction|]. destruct neg; reflexivity.
Qed.

Lemma digits_value_nonneg ds : (0 <= digits_value ds)%Z.
Proof.
  induction ds as [|c ds IH] using rev_ind; [reflexivity|].
  unfold digits_value in *; rewrite fold_left_app; simpl.
  assert (0 <= digit_val c)%Z by (unfold digit_val; lia). lia.
Qed.

Lemma decimal_Q_eq m (L : nat) :
  decimal_Q m (0 - Z.of_nat L) == inject_Z m / inject_Z (10 ^ Z.of_nat L).
Proof.
  unfold decimal_Q. destruct (0 <=? 0 - Z.of_nat L)%Z eqn:E.
  - apply Z.leb_le in E. assert (L = 0%nat) by lia; subst.
    unfold Qeq, Qdiv, Qmult, Qinv; simpl; lia.
  - apply Z.leb_gt in E.
    replace (- (0 - Z.of_nat L))%Z with (Z.of_nat L) by lia.
    rewrite Qmake_Qdiv, Z2Pos.id by (apply Z.pow_pos_nonneg; lia).
    reflexivity.
Qed.

Lemma float_of_Q_compat b p q : p == q -> float_of_Q b p = float_of_Q b q.
Proof.
  intros H. unfold float_of_Q.
  destruct (Qle_bool overflow_bound p) eqn:E1, (Qle_bool overflow_bound q) eqn:E2;
    auto.
  - apply Qle_bool_iff in E1. rewrite H in E1.
    apply Qle_bool_iff in E1. congruence.
  - apply Qle_bool_iff in E2. rewrite <- H in E2.
    apply Qle_bool_iff in E2. congruence.
  - f_equal. unfold dbl. rewrite (Qred_complete p q H). reflexivity.
Qed.

Lemma py_float_token d1 dot d2 :
  digitsp d1 -> int_ok d2 ->
  py_float (real_token d1 dot d2) = Some (real_double d1 dot d2).
Proof.
  intros H1 [Hne H2]. unfold py_float.
  assert (Hs : no_space (real_token d1 dot d2) = true).
  { unfold real_token, no_space. rewrite !forallb_app.
    pose proof (digitsp_no_space _ H1); pose proof (digitsp_no_space _ H2).
    unfold no_space in *. rewrite H, H0. destruct dot; reflexivity. }
  rewrite no_space_num_strip by exact Hs.
  rewrite drop_underscores_id.
  2:{ unfold real_token; apply Forall_app; split; [apply digitsp_no_us; auto|].
      apply Forall_app; split; [destruct dot; repeat constructor|].
      apply digitsp_no_us; auto. }
  assert (Hhd : exists c r, real_token d1 dot d2 = c :: r
                 /\ (is_digit c = true \/ c = "."%char)).
  { unfold real_token. destruct d1 as [|c d1].
    - destruct dot.
      + exists "."%char, d2; auto.
      + destruct d2 as [|c d2]; [contradiction|]. inversion H2; subst.
        exists c, d2; auto.
    - inversion H1; subst. exists c, (d1 ++ (if dot then ["."%char] else []) ++ d2).
      auto. }
  destruct Hhd as (c & r & Hcr & Hc).
  assert (Ht : take_sign (real_token d1 dot d2) = (false, real_token d1 dot d2)).
  { rewrite Hcr. destruct Hc as [Hc| ->]; [|reflexivity].
    destruct (digit_facts c Hc) as (_ & _ & E1 & E2 & _).
    simpl; rewrite E1, E2; reflexivity. }
  rewrite Ht.
  assert (Hl : forall w, str_eqb (lower (real_token d1 dot d2)) (lit w) = true ->
                         match list_ascii_of_string w with
                         | x :: _ => x = ascii_lower c | [] => True end).
  { intros w Hw. apply str_eqb_spec in Hw. rewrite Hcr in Hw. unfold lit in Hw.
    destruct (list_ascii_of_string w); [exact I|]. simpl in Hw. congruence. }
  assert (Hlc : ch_eqb (ascii_lower c) "i" = false /\ ch_eqb (ascii_lower c) "n" = false).
  { destruct Hc as [Hc| ->]; [|split; reflexivity].
    destruct (digit_facts c Hc) as (_ & _ & _ & _ & _ & _ & E1 & E2 & _); auto. }
  destruct Hlc as [Li Ln].
  destruct (str_eqb (lower (real_token d1 dot d2)) (lit "inf")) eqn:E1.
  { apply Hl in E1; simpl in E1; subst. rewrite <- E1 in Li; discriminate. }
  destruct (str_eqb (lower (real_token d1 dot d2)) (lit "infinity")) eqn:E2.
  { apply Hl in E2; simpl in E2; rewrite <- E2 in Li; discriminate. }
  destruct (str_eqb (lower (real_token d1 dot d2)) (lit "nan")) eqn:E3.
  { apply Hl in E3; simpl in E3; rewrite <- E3 in Ln; discriminate. }
  simpl orb; cbv iota.
  unfold parse_decimal, real_token, real_double, real_value.
  destruct dot.
  - rewrite take_digits_app by (auto; reflexivity).
    simpl. rewrite <- (app_nil_r d2) at 1. rewrite take_digits_app by auto.
    destruct (d1 ++ d2) as [|x y] eqn:Ed.
    { destruct d2; [contradiction|]. apply app_eq_nil in Ed as [_ Ed]; discriminate. }
    simpl. f_equal. apply float_of_Q_compat. rewrite <- Ed. apply decimal_Q_eq.
  - simpl. rewrite <- (app_nil_r (d1 ++ d2)).
    rewrite take_digits_app by (auto; apply Forall_app; auto).
    rewrite app_nil_r.
    destruct (d1 ++ d2) as [|x y] eqn:Ed.
    { destruct d2; [contradiction|]. apply app_eq_nil in Ed as [_ Ed]; discriminate. }
    simpl. f_equal; apply float_of_Q_compat; apply (decimal_Q_eq _ 0).
Qed.

Lemma drag_of_match_tokens m n1 d1 n2 d2 n3 d3 n4 d4 dur :
  int_ok d1 -> int_ok d2 -> int_ok d3 -> int_ok d4 -> dur_ok dur ->
  group 1 m = Some (int_token n1 d1) -> group 2 m = Some (int_token n2 d2) ->
  group 3 m = Some (int_token n3 d3) -> group 4 m = Some (int_token n4 d4) ->
  group 5 m = dur_text dur ->
  drag_of_match m
  = LStep (SDrag (int_value n1 d1) (int_value n2 d2) (int_value n3 d3)
                 (int_value n4 d4) (dur_double dur)).
Proof.
  intros H1 H2 H3 H4 Hd G1 G2 G3 G4 G5. unfold drag_of_match.
  rewrite G1, G2, G3, G4, G5; cbn [opt_str].
  rewrite !py_int_token by assumption.
  destruct dur as [[[a dot] b]|]; cbn [dur_text dur_double option_map]; [|reflexivity].
  destruct Hd as [Ha Hb]. rewrite py_float_token by assumption; reflexivity.
Qed.

Lemma parse_line_cases raw :
  parse_line raw = LSkip \/ is_sleep_result (parse_line raw) = true
  \/ parse_line raw = LErr (PInvalid (strip raw))
  \/ exists p n1 d1 n2 d2 n3 d3 n4 d4 dur tail,
       pads_ok p /\ int_ok d1 /\ int_ok d2 /\ int_ok d3 /\ int_ok d4 /\ dur_ok dur
       /\ (tail = [] \/ tail = ["010"%char])
       /\ strip raw = drag_text p (int_token n1 d1) (int_token n2 d2) (int_token n3 d3)
                                (int_token n4 d4) (dur_text dur) ++ tail
       /\ parse_line raw
          = LStep (SDrag (int_value n1 d1) (int_value n2 d2) (int_value n3 d3)
                         (int_value n4 d4) (dur_double dur)).
Proof.
  destruct ((match strip raw with [] => true | _ => false end)
            || startswith (strip raw) (lit "#")) eqn:E1.
  { left. unfold parse_line; cbv zeta; rewrite E1; reflexivity. }
  destruct (startswith (upper (strip raw)) (lit "SLEEP")) eqn:E2.
  { right; left. apply startswith_upper_sleep in E2.
    rewrite (parse_line_sleep raw E2).
    destruct (split (strip raw)) as [|a [|b [|c l]]]; try reflexivity.
    destruct (py_float b); reflexivity. }
  destruct (re_match drag_line_re (strip raw)) as [m|] eqn:E3.
  - right; right; right.
    destruct (drag_re_decode _ _ E3) as (p & n1 & d1 & n2 & d2 & n3 & d3 & n4 & d4 & dur
      & tail & Hp & H1 & H2 & H3 & H4 & Hd & Ht & Hl & G1 & G2 & G3 & G4 & G5).
    exists p, n1, d1, n2, d2, n3, d3, n4, d4, dur, tail.
    repeat (split; [assumption|]).
    unfold parse_line; cbv zeta; rewrite E1, E2, E3.
    apply drag_of_match_tokens; assumption.
  - right; right; left. unfold parse_line; cbv zeta; rewrite E1, E2, E3; reflexivity.
Qed.

(** ** Completeness of the matcher on the drag grammar *)








Section Chain.
Variables (r2 : regex) (cs : caps) (k : cont) (res : caps).











End Chain.











(** ** Whole files *)



Lemma parse_lines_ok path idx lines steps :
  parse_lines path idx lines = inr steps ->
  Forall (fun s => exists raw, parse_line raw = LStep s) steps.
Proof.
  revert idx steps; induction lines as [|l lines IH]; intros idx steps H; simpl in H.
  - injection H as <-; constructor.
  - destruct (parse_line l) as [|s|e] eqn:El.
    + eapply IH; eauto.
    + destruct (parse_lines path (S idx) lines) as [m|st] eqn:E; [discriminate|].
      injection H as <-. constructor; eauto.
    + discriminate.
Qed.

Lemma pow2_pos e : 0 < pow2 e.
Proof.
  unfold pow2. destruct (0 <=? e)%Z eqn:E; unfold Qlt; simpl; [|lia].
  rewrite Z.mul_1_r. apply Z.pow_pos_nonneg; [lia|]. apply Z.leb_le in E; exact E.
Qed.

Lemma round_half_even_nonneg q : 0 <= q -> (0 <= round_half_even q)%Z.
Proof.
  intros H. unfold round_half_even.
  assert (Hn : (0 <= Qnum q)%Z) by (unfold Qle in H; simpl in H; lia).
  assert (0 <= Qnum q / Zpos (Qden q))%Z by (apply Z.div_pos; lia).
  destruct (Z.compare _ _); [destruct (Z.even _)| |]; lia.
Qed.

Lemma dbl_nonneg q : 0 <= q -> 0 <= dbl q.
Proof.
  intros H. unfold dbl; cbv zeta.
  assert (Hr : 0 <= Qred q) by (rewrite Qred_correct; exact H).
  destruct (Qeq_bool (Qred q) 0); [apply Qle_refl|].
  rewrite Qred_correct. apply Qmult_le_0_compat.
  - unfold Qle; simpl; rewrite Z.mul_1_r. apply round_half_even_nonneg.
    apply Qmult_le_0_compat; [exact Hr|]. apply Qinv_le_0_compat.
    apply Qlt_le_weak, pow2_pos.
  - apply Qlt_le_weak, pow2_pos.
Qed.

Lemma real_double_range a dot b :
  (exists q, real_double a dot b = FFin q /\ 0 <= q) \/ real_double a dot b = FInf false.
Proof.
  unfold real_double, float_of_Q.
  destruct (Qle_bool overflow_bound (real_value a dot b)); [right; reflexivity|].
  left; eexists; split; [reflexivity|]. rewrite Qred_correct. apply dbl_nonneg.
  unfold real_value, Qdiv. apply Qmult_le_0_compat; [|apply Qinv_le_0_compat];
    unfold Qle; simpl; rewrite Z.mul_1_r.
  - apply digits_value_nonneg.
  - apply Z.pow_nonneg; lia.
Qed.

(** C8 (amended): the coordinates of every Drag step of a successful parse
    are integers, and its duration, when present, is a finite non-negative
    number or positive infinity. *)
Theorem C8_drag_values path lines steps :
  parse_file path lines = inr steps ->
  Forall (fun s => match s with
                   | SDrag _ _ _ _ (Some d) =>
                       (exists q, d = FFin q /\ 0 <= q) \/ d = FInf false
                   | _ => True
                   end) steps.
Proof.
  intros H. apply parse_lines_ok in H.
  eapply Forall_impl; [|exact H]. intros s (raw & Hr).
  destruct s as [x1 y1 x2 y2 [d|]|sec]; auto.
  destruct (parse_line_cases raw) as [E|[E|[E|E]]]; try congruence.
  - rewrite Hr in E; discriminate.
  - destruct E as (p & n1 & d1 & n2 & d2 & n3 & d3 & n4 & d4 & dur & tail & _ & _ & _ & _
                   & _ & _ & _ & _ & E).
    rewrite Hr in E. injection E as _ _ _ _ E.
    destruct dur as [[[a dot] b]|]; [|discriminate].
    injection E as ->. apply real_double_range.
Qed.

Lemma C8_drag_values_witness :
  parse_file (lit "f") example_lines
  = inr [SDrag (-660) 663 (-961) 494 (Some (FFin 1)); SSleep (FFin (3602879701896397 # 36028797018963968));
         SDrag (-961) 494 (-1260) 494 (Some (FFin 1))]
  /\ Forall (fun s => match s with
                      | SDrag _ _ _ _ (Some d) =>
                          (exists q, d = FFin q /\ 0 <= q) \/ d = FInf false
                      | _ => True
                      end)
       [SDrag (-660) 663 (-961) 494 (Some (FFin 1)); SSleep (FFin (3602879701896397 # 36028797018963968));
        SDrag (-961) 494 (-1260) 494 (Some (FFin 1))].
Proof.
  split; [vm_compute; reflexivity|].
  apply (C8_drag_values (lit "f") example_lines); vm_compute; reflexivity.
Defined.

(** C8 fails as stated: a duration literal too large for a double is
    accepted by the pattern and [float] turns it into [inf], so the Drag step
    carries an infinite duration, not a real number. *)
Lemma C8_huge_duration_inf :
  parse_file (lit "m") [lit "0,0 -> 1,1," ++ repeat "9"%char 309]
  = inr [SDrag 0 0 1 1 (Some (FInf false))].
Proof. vm_compute; reflexivity. Qed.




(** ** The SLEEP test on Unicode text *)

Lemma u_upper_cons c l : u_upper (c :: l) = u_upper_char c ++ u_upper l.
Proof. reflexivity. Qed.

Lemma u_upper_app a b : u_upper (a ++ b) = u_upper a ++ u_upper b.
Proof. unfold u_upper; apply flat_map_app. Qed.

Lemma upper_head_ok_table :
  forallb (fun p => upper_head_ok (fst p) (snd p)) u_upper_table = true.
Proof. vm_compute; reflexivity. Qed.

Lemma upper_head_ok_all c : upper_head_ok c (u_upper_char c) = true.
Proof.
  unfold u_upper_char.
  destruct (find (fun p => N.eqb (fst p) c) u_upper_table) as [[c' u]|] eqn:E.
  - apply find_some in E as [Hin Heq]; simpl in Heq; apply N.eqb_eq in Heq; subst c'.
    pose proof upper_head_ok_table as T; rewrite forallb_forall in T.
    apply (T _ Hin).
  - unfold upper_head_ok.
    destruct (c =? 83)%N eqn:E1; [apply N.eqb_eq in E1; subst; reflexivity|].
    destruct (c =? 76)%N eqn:E2; [apply N.eqb_eq in E2; subst; reflexivity|].
    destruct (c =? 69)%N eqn:E3; [apply N.eqb_eq in E3; subst; reflexivity|].
    destruct (c =? 80)%N eqn:E4; [apply N.eqb_eq in E4; subst; reflexivity|].
    reflexivity.
Qed.

Lemma existsb_N_In c l : existsb (N.eqb c) l = true <-> In c l.
Proof.
  rewrite existsb_exists. split.
  - intros [y [Hy E]]; apply N.eqb_eq in E; subst; exact Hy.
  - intros H; exists c; split; [exact H|apply N.eqb_refl].
Qed.

Lemma upper_S_head c l P :
  u_startswith (u_upper (c :: l)) (83 :: 76 :: P)%N = true ->
  In c [83; 115; 383]%N /\ u_startswith (u_upper l) (76 :: P)%N = true.
Proof.
  intros H. rewrite u_upper_cons in H.
  pose proof (upper_head_ok_all c) as Hok.
  destruct (u_upper_char c) as [|y rest]; [discriminate|].
  cbn [u_startswith app] in H. apply andb_true_iff in H as [Hy H]; apply N.eqb_eq in Hy; subst y.
  cbn [upper_head_ok N.eqb Pos.eqb] in Hok.
  destruct rest as [|z r].
  - rewrite andb_true_r, orb_false_r in Hok. apply existsb_N_In in Hok.
    split; [exact Hok|exact H].
  - cbn [u_startswith app] in H. apply andb_true_iff in H as [Hz _]; apply N.eqb_eq in Hz; subst z.
    cbn [N.eqb Pos.eqb negb] in Hok. rewrite andb_false_r in Hok. discriminate.
Qed.

Lemma upper_letter c l x lx P :
  In (x, lx) [(76, 108); (69, 101); (80, 112)]%N ->
  u_startswith (u_upper (c :: l)) (x :: P) = true ->
  In c [x; lx] /\ u_startswith (u_upper l) P = true.
Proof.
  intros Hx H. rewrite u_upper_cons in H.
  pose proof (upper_head_ok_all c) as Hok.
  destruct (u_upper_char c) as [|y rest]; [discriminate|].
  cbn [u_startswith app] in H. apply andb_true_iff in H as [Hy H]; apply N.eqb_eq in Hy; subst y.
  destruct Hx as [E|[E|[E|[]]]]; injection E as <- <-;
    cbn [upper_head_ok N.eqb Pos.eqb] in Hok;
    destruct rest; rewrite ?andb_true_r, ?andb_false_r in Hok; try discriminate;
    apply existsb_N_In in Hok; split; assumption.
Qed.

Lemma upper_char_letter c x lx :
  In (x, lx) [(83, 115); (76, 108); (69, 101); (80, 112)]%N ->
  In c [x; lx] -> u_upper_char c = [x].
Proof.
  intros Hx Hc.
  destruct Hx as [E|[E|[E|[E|[]]]]]; injection E as <- <-;
    destruct Hc as [<-|[<-|[]]]; reflexivity.
Qed.

Lemma upper_char_long_s : u_upper_char 383%N = [83%N].
Proof. reflexivity. Qed.

Lemma u_startswith_upper_sleep l :
  u_startswith (u_upper l) (ulit "SLEEP") = true <-> u_sleep_prefix l.
Proof.
  split.
  - intros H. change (ulit "SLEEP") with [83; 76; 69; 69; 80]%N in H.
    destruct l as [|c1 l1]; [discriminate|].
    apply upper_S_head in H as [H1 H].
    destruct l1 as [|c2 l2]; [discriminate|].
    apply (upper_letter c2 l2 76 108) in H as [H2 H]; [|simpl; auto].
    destruct l2 as [|c3 l3]; [discriminate|].
    apply (upper_letter c3 l3 69 101) in H as [H3 H]; [|simpl; auto].
    destruct l3 as [|c4 l4]; [discriminate|].
    apply (upper_letter c4 l4 69 101) in H as [H4 H]; [|simpl; auto].
    destruct l4 as [|c5 l5]; [discriminate|].
    apply (upper_letter c5 l5 80 112) in H as [H5 _]; [|simpl; auto].
    exists c1, c2, c3, c4, c5, l5; auto 7.
  - intros (c1 & c2 & c3 & c4 & c5 & rest & -> & H1 & H2 & H3 & H4 & H5).
    rewrite u_upper_app; cbn [app]; rewrite !u_upper_cons.
    assert (E1 : u_upper_char c1 = [83%N]).
    { destruct H1 as [<-|[<-|[<-|[]]]]; reflexivity. }
    rewrite E1, (upper_char_letter c2 76 108), (upper_char_letter c3 69 101),
      (upper_char_letter c4 69 101), (upper_char_letter c5 80 112)
      by (simpl; auto).
    destruct (u_upper rest); reflexivity.
Qed.

Lemma u_parse_line_sleep raw :
  u_sleep_prefix (u_strip raw) ->
  u_parse_line raw =
    match u_split (u_strip raw) with
    | [_; tok] =>
        match u_float tok with
        | Some seconds => ULStep (SSleep seconds)
        | None => ULErr (UPSleepValue tok)
        end
    | _ => ULErr (UPSleepArity (u_strip raw))
    end.
Proof.
  intros H. unfold u_parse_line.
  assert (Hs := proj2 (u_startswith_upper_sleep _) H).
  destruct H as (c1 & c2 & c3 & c4 & c5 & rest & E & H1 & _).
  assert (Hh : (match u_strip raw with [] => true | _ => false end)
               || u_startswith (u_strip raw) (ulit "#") = false)
    by (rewrite E; destruct H1 as [<-|[<-|[<-|[]]]]; reflexivity).
  rewrite Hh, Hs. reflexivity.
Qed.

Lemma u_parse_line_not_sleep raw :
  ~ u_sleep_prefix (u_strip raw) -> u_is_sleep_result (u_parse_line raw) = false.
Proof.
  intros H. unfold u_parse_line.
  destruct (_ || _); [reflexivity|].
  destruct (u_startswith (u_upper (u_strip raw)) (ulit "SLEEP")) eqn:Es.
  { exfalso; apply H, u_startswith_upper_sleep, Es. }
  destruct (u_re_match u_drag_line_re (u_strip raw)) as [m|]; [|reflexivity].
  unfold u_drag_of_match.
  repeat match goal with
         | |- context [u_int ?x] => destruct (u_int x)
         | |- context [ugroup 5 m] => destruct (ugroup 5 m)
         | |- context [u_float ?x] => destruct (u_float x)
         end; reflexivity.
Qed.

(** C3 (amended): a line, of any Unicode characters, is handled as a SLEEP
    directive exactly when, once trimmed, it begins with S, L, E, E, P in
    either case, the first letter possibly the long s U+017F (which
    [str.upper] maps to S); such a line fails with "SLEEP requires one
    numeric value" unless it splits into exactly two whitespace-separated
    tokens, fails with "Invalid SLEEP seconds" when the second token is not
    accepted by [float], and otherwise gives [Sleep seconds]. *)
Theorem C3_sleep_directive raw :
  (u_is_sleep_result (u_parse_line raw) = true <-> u_sleep_prefix (u_strip raw))
  /\ (u_sleep_prefix (u_strip raw) ->
      (List.length (u_split (u_strip raw)) <> 2%nat ->
         u_parse_line raw = ULErr (UPSleepArity (u_strip raw)))
      /\ (forall kw tok, u_split (u_strip raw) = [kw; tok] -> u_float tok = None ->
            u_parse_line raw = ULErr (UPSleepValue tok))
      /\ (forall kw tok v, u_split (u_strip raw) = [kw; tok] -> u_float tok = Some v ->
            u_parse_line raw = ULStep (SSleep v))).
Proof.
  split.
  - split.
    + intros Hr.
      destruct (u_startswith (u_upper (u_strip raw)) (ulit "SLEEP")) eqn:Es.
      * apply u_startswith_upper_sleep; exact Es.
      * assert (H : ~ u_sleep_prefix (u_strip raw)).
        { intros Hp; apply u_startswith_upper_sleep in Hp; congruence. }
        rewrite (u_parse_line_not_sleep raw H) in Hr; discriminate.
    + intros H. rewrite (u_parse_line_sleep raw H).
      destruct (u_split (u_strip raw)) as [|a [|b [|c l]]]; try reflexivity.
      destruct (u_float b); reflexivity.
  - intros H. rewrite (u_parse_line_sleep raw H). split; [|split].
    + destruct (u_split (u_strip raw)) as [|a [|b [|c l]]]; try reflexivity.
      simpl; intros Hn; exfalso; apply Hn; reflexivity.
    + intros kw tok -> ->; reflexivity.
    + intros kw tok v -> ->; reflexivity.
Qed.

Lemma C3_sleep_directive_witness :
  u_sleep_prefix (u_strip (383%N :: ulit "leep 2 "))
  /\ u_split (u_strip (383%N :: ulit "leep 2 ")) = [383%N :: ulit "leep"; ulit "2"]
  /\ u_float (ulit "2") = Some (FFin 2)
  /\ u_parse_line (383%N :: ulit "leep 2 ") = ULStep (SSleep (FFin 2)).
Proof.
  assert (Hp : u_sleep_prefix (u_strip (383%N :: ulit "leep 2 "))).
  { exists 383%N, 108%N, 101%N, 101%N, 112%N, (ulit " 2").
    split; [vm_compute; reflexivity|]. simpl; auto 10. }
  split; [exact Hp|]. split; [vm_compute; reflexivity|].
  split; [vm_compute; reflexivity|].
  apply (proj2 (proj2 (proj2 (C3_sleep_directive (383%N :: ulit "leep 2 ")) Hp))
           (383%N :: ulit "leep") (ulit "2")); vm_compute; reflexivity.
Defined.

(** C3 fails as stated: "ſleep 5", whose first character is the long s
    U+017F and neither S nor s, is handled as a SLEEP directive and gives
    [Sleep 5.0], since [str.upper] maps the long s to S. *)
Lemma C3_long_s_sleep :
  u_parse_line (383%N :: ulit "leep 5") = ULStep (SSleep (FFin 5))
  /\ ~ In (hd 0%N (383%N :: ulit "leep 5")) (ulit "Ss").
Proof.
  split; [vm_compute; reflexivity|].
  simpl; intros [H|[H|[]]]; discriminate.
Qed.


(** ** The executor and [main], beyond the claims *)

Ltac split_calls H r :=
  repeat match type of H with
         | context [r ?n] => destruct (r n); simpl in H
         | context [sleep_error ?x] => destruct (sleep_error x); simpl in H
         end.

Lemma drag_step_normal raises dd bd cx cy si sx sy ex ey dur s s' p :
  drag_step raises dd bd cx cy si sx sy ex ey dur s = (s', inr p) ->
  p = (ex, ey, S si)
  /\ trace s' = trace s ++
       (if negb (Z.eqb sx cx && Z.eqb sy cy)
        then [EPrint (NWarn sx sy cx cy); EMoveTo sx sy (FFin 0) Linear] else [])
       ++ [EPrint (NMove (S si) sx sy ex ey (match dur with Some d => d | None => dd end));
           EMoveTo ex ey (match dur with Some d => d | None => dd end) EaseInOutQuad]
       ++ (if gt0 bd then [ESleep bd] else []).
Proof.
  unfold drag_step, bind, print, moveTo, sleep, call, ret; intros H.
  destruct (negb _); destruct (gt0 bd); simpl in H; split_calls H raises;
    try discriminate; injection H as <- <-; split; auto; simpl;
    repeat rewrite <- app_assoc; reflexivity.
Qed.

Lemma run_steps_normal raises dd bd steps :
  forall cx cy si s s',
  run_steps raises dd bd steps cx cy si s = (s', inr tt) ->
  trace s' = trace s ++ run_trace dd bd steps cx cy si.
Proof.
  induction steps as [|[sx sy ex ey dur|x] rest IH]; intros cx cy si s s' H; simpl in H.
  - injection H as <-; rewrite app_nil_r; reflexivity.
  - unfold bind at 1 in H.
    destruct (drag_step raises dd bd cx cy si sx sy ex ey dur s) as [s1 [e|p]] eqn:E;
      [discriminate|].
    apply drag_step_normal in E as [-> E].
    apply IH in H. rewrite H, E. simpl. repeat rewrite <- app_assoc. reflexivity.
  - unfold bind, print, sleep, call in H; simpl in H. split_calls H raises; try discriminate.
    apply IH in H. rewrite H. simpl. rewrite <- !app_assoc. reflexivity.
Qed.

Lemma run_single_hold_normal raises steps dd button bd x1 y1 s s' :
  first_drag steps = Some (x1, y1) ->
  run_single_hold raises steps dd button bd s = (s', inr tt) ->
  trace s' = trace s ++
    [EPrint (NStart x1 y1 (norm_button button)); EMoveTo x1 y1 (FFin 0) Linear;
     EMouseDown (norm_button button)]
    ++ run_trace dd bd steps x1 y1 0 ++ [EPrint NRelease; EMouseUp (norm_button button)].
Proof.
  intros Hf H. unfold run_single_hold in H; rewrite Hf in H.
  unfold bind at 1 2 3, print at 1, moveTo, mouseDown, call at 1 2 in H; simpl in H.
  split_calls H raises; try discriminate.
  unfold try_finally in H.
  destruct (run_steps raises dd bd steps x1 y1 0 _) as [s1 r] eqn:E.
  unfold bind, print, mouseUp, call in H; simpl in H. split_calls H raises; try discriminate.
  injection H as <- ->. apply run_steps_normal in E. simpl. rewrite E. simpl.
  repeat rewrite <- app_assoc. reflexivity.
Qed.

Lemma first_drag_none_drags steps :
  first_drag steps = None ->
  forall dd, count_drags steps = 0%nat /\ drag_targets dd steps = [] /\ last_drag_end steps = None.
Proof.
  intros H dd; induction steps as [|[] rest IH]; simpl in *; try discriminate; auto.
  destruct (IH H) as (A & B & C). unfold count_drags in *; simpl. rewrite C; auto.
Qed.

Lemma run_trace_numbers dd bd steps :
  forall cx cy si,
  move_numbers (run_trace dd bd steps cx cy si) = seq (S si) (count_drags steps).
Proof.
  induction steps as [|[sx sy ex ey dur|x] rest IH]; intros cx cy si; simpl; auto.
  unfold move_numbers in *; unfold count_drags in *; simpl.
  destruct (negb _); destruct (gt0 bd); simpl; rewrite IH; reflexivity.
Qed.

Lemma run_trace_targets dd bd steps :
  forall cx cy si, timed_moves (run_trace dd bd steps cx cy si) = drag_targets dd steps.
Proof.
  induction steps as [|[sx sy ex ey dur|x] rest IH]; intros cx cy si; simpl; auto.
  unfold timed_moves, drag_targets in *; simpl.
  destruct (negb _); destruct (gt0 bd); simpl; rewrite IH; reflexivity.
Qed.

Lemma run_trace_sleeps dd bd steps :
  forall cx cy si, sleep_calls (run_trace dd bd steps cx cy si) = sleep_args bd steps.
Proof.
  induction steps as [|[sx sy ex ey dur|x] rest IH]; intros cx cy si; simpl; auto.
  - unfold sleep_calls in *; simpl.
    destruct (negb _); destruct (gt0 bd); simpl; rewrite IH; reflexivity.
  - unfold sleep_calls in *; simpl. rewrite IH; reflexivity.
Qed.

Lemma last_move_app a b :
  last_move (a ++ b) = match last_move b with Some p => Some p | None => last_move a end.
Proof.
  induction a as [|e a IH]; simpl.
  - destruct (last_move b); reflexivity.
  - rewrite IH. destruct (last_move b); reflexivity.
Qed.

Lemma run_trace_last dd bd steps :
  forall cx cy si, last_move (run_trace dd bd steps cx cy si) = last_drag_end steps.
Proof.
  induction steps as [|[sx sy ex ey dur|x] rest IH]; intros cx cy si; simpl; auto.
  - destruct (negb _); destruct (gt0 bd); simpl; rewrite IH;
      destruct (last_drag_end rest); reflexivity.
  - rewrite IH; destruct (last_drag_end rest); reflexivity.
Qed.

Lemma run_single_hold_no_drag raises steps dd button bd s :
  first_drag steps = None ->
  run_single_hold raises steps dd button bd s = (mkState (trace s ++ [EPrint NNoDrag]) (ncalls s), inr tt).
Proof. intros H; unfold run_single_hold; rewrite H; reflexivity. Qed.

Ltac normal_case H F x1 y1 :=
  apply (run_single_hold_normal _ _ _ _ _ x1 y1) in H; [|exact F]; rewrite H.

(** When [run_single_hold] returns normally, the MOVE lines it prints are
    numbered 1, 2, ... up to the number of Drag steps, in order: SLEEP steps
    and connector moves do not advance [seg_index]. *)
Theorem run_single_hold_segment_numbers raises steps dd button bd s' :
  run_single_hold raises steps dd button bd init = (s', inr tt) ->
  move_numbers (trace s') = seq 1 (count_drags steps).
Proof.
  intros H. destruct (first_drag steps) as [[x1 y1]|] eqn:F.
  - normal_case H F x1 y1. unfold move_numbers; simpl.
    rewrite flat_map_app; simpl; rewrite app_nil_r. apply run_trace_numbers.
  - rewrite run_single_hold_no_drag in H by exact F. injection H as <-.
    destruct (first_drag_none_drags steps F dd) as (-> & _); reflexivity.
Qed.

(** When [run_single_hold] returns normally, its eased (timed) moves are
    exactly one per Drag step, in order, each to the step's end point with
    the step's own duration or else [default_duration]. *)
Theorem run_single_hold_timed_moves raises steps dd button bd s' :
  run_single_hold raises steps dd button bd init = (s', inr tt) ->
  timed_moves (trace s') = drag_targets dd steps.
Proof.
  intros H. destruct (first_drag steps) as [[x1 y1]|] eqn:F.
  - normal_case H F x1 y1. unfold timed_moves; simpl.
    rewrite flat_map_app; simpl; rewrite app_nil_r. apply run_trace_targets.
  - rewrite run_single_hold_no_drag in H by exact F. injection H as <-.
    destruct (first_drag_none_drags steps F dd) as (_ & -> & _); reflexivity.
Qed.

(** When [run_single_hold] returns normally, the [time.sleep] calls are the
    SLEEP values and, after each Drag step, [between_delay] when it is
    [> 0] (never when it is 0, negative or NaN); with no Drag step there are none. *)
Theorem run_single_hold_sleeps raises steps dd button bd s' :
  run_single_hold raises steps dd button bd init = (s', inr tt) ->
  sleep_calls (trace s') =
    match first_drag steps with None => [] | Some _ => sleep_args bd steps end.
Proof.
  intros H. destruct (first_drag steps) as [[x1 y1]|] eqn:F.
  - normal_case H F x1 y1. unfold sleep_calls; simpl.
    rewrite flat_map_app; simpl; rewrite app_nil_r. apply run_trace_sleeps.
  - rewrite run_single_hold_no_drag in H by exact F. injection H as <-. reflexivity.
Qed.

(** When [run_single_hold] returns normally, the last [moveTo] goes to the
    end point of the last Drag step (no move at all when there is no Drag). *)
Theorem run_single_hold_final_position raises steps dd button bd s' :
  run_single_hold raises steps dd button bd init = (s', inr tt) ->
  last_move (trace s') = last_drag_end steps.
Proof.
  intros H. destruct (first_drag steps) as [[x1 y1]|] eqn:F.
  - normal_case H F x1 y1. simpl trace.
    rewrite !last_move_app, run_trace_last. simpl.
    destruct (last_drag_end steps) eqn:L; auto.
    (* a first Drag exists, so a last one does too *)
    exfalso. clear H. induction steps as [|[] rest IH]; simpl in *; try discriminate;
      destruct (last_drag_end rest); try discriminate; auto.
  - rewrite run_single_hold_no_drag in H by exact F. injection H as <-.
    destruct (first_drag_none_drags steps F dd) as (_ & _ & ->); reflexivity.
Qed.

Lemma run_steps_no_exn dd bd steps :
  forall cx cy si s,
  snd (run_steps no_exn dd bd steps cx cy si s) =
    match first_error (sleep_args bd steps) with Some e => inl e | None => inr tt end.
Proof.
  induction steps as [|[sx sy ex ey dur|x] rest IH]; intros cx cy si s; simpl; auto.
  - unfold drag_step, bind, print, moveTo, sleep, call, ret, no_exn.
    destruct (negb _); destruct (gt0 bd); simpl;
      try (destruct (sleep_error bd); simpl); auto.
  - unfold bind, print, sleep, call, no_exn.
    destruct (sleep_error x); simpl; auto.
Qed.






Lemma run_single_hold_no_exn steps dd button bd s :
  snd (run_single_hold no_exn steps dd button bd s) =
    match first_drag steps with
    | None => inr tt
    | Some _ =>
        match first_error (sleep_args bd steps) with Some e => inl e | None => inr tt end
    end.
Proof.
  unfold run_single_hold. destruct (first_drag steps) as [[x1 y1]|] eqn:F; [|reflexivity].
  unfold bind at 1 2 3, print at 1, moveTo, mouseDown, call at 1 2, no_exn at 1 2; simpl.
  unfold try_finally.
  match goal with |- context [run_steps no_exn dd bd steps x1 y1 0 ?st] =>
    pose proof (run_steps_no_exn dd bd steps x1 y1 0 st) as R;
    destruct (run_steps no_exn dd bd steps x1 y1 0 st) as [s1 r]
  end.
  simpl in R |- *; subst r.
  reflexivity.
Qed.


Lemma drag_of_match_not_skip m : drag_of_match m <> LSkip.
Proof.
  unfold drag_of_match.
  repeat match goal with |- context [match ?x with _ => _ end] => destruct x end;
    discriminate.
Qed.

Lemma parse_line_skip raw : parse_line raw = LSkip <-> skip_line raw = true.
Proof.
  unfold parse_line, skip_line; cbv zeta.
  destruct (_ || _); split; auto; intros H; [|discriminate].
  exfalso; revert H.
  destruct (startswith _ _).
  - destruct (split (strip raw)) as [|a [|b [|c l]]]; try discriminate.
    destruct (py_float b); discriminate.
  - destruct (re_match _ _); [apply drag_of_match_not_skip|discriminate].
Qed.

(** A line yields nothing (neither a step nor an error) exactly when it is
    blank after [strip] or its stripped text starts with '#'. *)
Theorem parse_line_skip_iff raw :
  parse_line raw = LSkip <->
  strip raw = [] \/ exists rest, strip raw = "#"%char :: rest.
Proof.
  rewrite parse_line_skip; unfold skip_line; cbv zeta.
  destruct (strip raw) as [|c rest].
  - simpl; split; auto.
  - cbn [orb startswith lit list_ascii_of_string].
    replace (startswith rest []) with true by (destruct rest; reflexivity).
    rewrite andb_true_r, ch_eqb_spec.
    split; [intros <-; eauto|].
    intros [H|[r H]]; [discriminate|injection H; auto].
Qed.

(** When parsing succeeds, it yields one step per line that is not blank
    or a comment. *)
Theorem parse_lines_count path idx lines steps :
  parse_lines path idx lines = inr steps ->
  List.length steps = List.length (filter (fun raw => negb (skip_line raw)) lines).
Proof.
  revert idx steps; induction lines as [|l lines IH]; intros idx steps H; simpl in H.
  - injection H as <-; reflexivity.
  - simpl. destruct (parse_line l) as [|s|e] eqn:El.
    + apply parse_line_skip in El; rewrite El; simpl; eauto.
    + assert (Hs : skip_line l = false).
      { destruct (skip_line l) eqn:E; auto. apply parse_line_skip in E; congruence. }
      rewrite Hs; simpl.
      destruct (parse_lines path (S idx) lines) as [m|st] eqn:E; [discriminate|].
      injection H as <-; simpl; f_equal; eauto.
    + discriminate.
Qed.

(** Parsing is compositional: once the first lines parse, the rest is
    parsed on its own with the line counter continued, and its steps are
    appended. *)
Theorem parse_lines_app path i l1 l2 s1 :
  parse_lines path i l1 = inr s1 ->
  parse_lines path i (l1 ++ l2) =
    match parse_lines path (i + List.length l1)%nat l2 with
    | inl m => inl m
    | inr s2 => inr (s1 ++ s2)
    end.
Proof.
  revert i s1; induction l1 as [|l l1 IH]; intros i s1 H; simpl in H |- *.
  - injection H as <-; rewrite Nat.add_0_r; destruct (parse_lines _ _ _); reflexivity.
  - replace (i + S (List.length l1))%nat with (S i + List.length l1)%nat by lia.
    destruct (parse_line l) as [|s|e].
    + apply IH; exact H.
    + destruct (parse_lines path (S i) l1) as [m|st] eqn:E; [discriminate|].
      injection H as <-. rewrite (IH _ _ E).
      destruct (parse_lines _ _ l2); reflexivity.
    + discriminate.
Qed.

Lemma lstrip_head x :
  match lstrip x with c :: _ => is_space c = false | [] => True end.
Proof.
  induction x as [|c x IH]; simpl; auto.
  destruct (is_space c) eqn:E; auto.
Qed.

Lemma lstrip_suffix x : exists p, x = p ++ lstrip x.
Proof.
  induction x as [|c x [p IH]]; simpl; [exists []; auto|].
  destruct (is_space c); [exists (c :: p); simpl; congruence|exists []; auto].
Qed.

Lemma strip_idem s : strip (strip s) = strip s.
Proof.
  apply strip_id.
  - unfold strip.
    destruct (lstrip_suffix (rev (lstrip s))) as [p Hp].
    assert (Hy : lstrip s = rev (lstrip (rev (lstrip s))) ++ rev p).
    { rewrite <- rev_app_distr, <- Hp, rev_involutive; reflexivity. }
    pose proof (lstrip_head s) as Hh. rewrite Hy in Hh.
    destruct (rev (lstrip (rev (lstrip s)))); auto.
  - unfold strip; rewrite rev_involutive. apply lstrip_head.
Qed.

(** A line and its stripped text parse the same: surrounding whitespace,
    newline included, never matters. *)
Theorem parse_line_strip raw : parse_line (strip raw) = parse_line raw.
Proof. unfold parse_line; rewrite strip_idem; reflexivity. Qed.

Lemma sleep_error_kind x e : sleep_error x = Some e -> e = ExnValue \/ e = ExnOverflow.
Proof.
  unfold sleep_error; destruct x as [q|[]|]; try (destruct (_ || _); [|destruct (_ <? 0)%Z]);
    intros H; first [discriminate|injection H as <-; auto].
Qed.

Lemma first_error_kind xs e : first_error xs = Some e -> e = ExnValue \/ e = ExnOverflow.
Proof.
  induction xs as [|x xs IH]; simpl; [discriminate|].
  destruct (sleep_error x) eqn:E; [intros H; injection H as <-; eapply sleep_error_kind; eauto|auto].
Qed.

(** [main] exits with status 1 exactly when opening, reading or parsing the
    file raises an [Exception]; it then prints only the banner lines and the
    error, and makes no sleep or pyautogui call. *)
Theorem main_exit_1 raises a f :
  snd (main raises a f) = Exited 1 <->
  exists msg, read_steps a f = ReadFailed msg
              /\ fst (main raises a f) = main_head a ++ [MN (MError msg)].
Proof.
  unfold main, main_head. destruct (read_steps a f) as [msg| |steps].
  - split; eauto.
  - split; [discriminate|intros (msg & H & _); discriminate].
  - split; [|intros (msg & H & _); discriminate].
    destruct (sleep raises (start_delay a) init) as [s1 [e|[]]]; [discriminate|].
    destruct (run_single_hold _ _ _ _ _ s1) as [s2 [[]|[]]]; discriminate.
Qed.

(** When no call raises on its own account (no failsafe, Ctrl+C or
    failing system call), [main] on a file read and parsed in full fails
    only on a sleep length [time.sleep] refuses: the start delay first, then
    the sleeps of the run; otherwise it returns normally. *)
Theorem main_no_exn_outcome a f steps :
  read_steps a f = ReadOk steps ->
  snd (main no_exn a f) =
    match sleep_error (start_delay a) with
    | Some e => Raised e
    | None =>
        match first_drag steps with
        | None => Returned
        | Some _ =>
            match first_error (sleep_args (between_delay a) steps) with
            | Some e => Raised e
            | None => Returned
            end
        end
    end.
Proof.
  intros H. unfold main; rewrite H.
  unfold sleep, call, no_exn at 1; simpl.
  destruct (sleep_error (start_delay a)); [reflexivity|].
  pose proof (run_single_hold_no_exn steps (default_duration a) (button a)
                (between_delay a) (mkState [ESleep (start_delay a)] 1)) as R.
  destruct (run_single_hold _ _ _ _ _ _) as [s2 r]; simpl in R; subst r.
  destruct (first_drag steps); [|reflexivity].
  destruct (first_error _) as [e|] eqn:E; [|reflexivity].
  destruct (first_error_kind _ _ E) as [-> | ->]; reflexivity.
Qed.

(** When no call raises on its own account (no failsafe, Ctrl+C or failing
    system call), [run_single_hold] fails exactly when [time.sleep] refuses
    some argument it reaches (a SLEEP value or a positive [between_delay]):
    NaN, a negative length, or one whose count of nanoseconds does not fit
    in 64 bits (infinities included); it then raises the exception of the
    first such one.  With no Drag step it returns normally. *)
Theorem run_single_hold_no_exn_outcome steps dd button bd s :
  snd (run_single_hold no_exn steps dd button bd s) =
    match first_drag steps with
    | None => inr tt
    | Some _ =>
        match first_error (sleep_args bd steps) with Some e => inl e | None => inr tt end
    end.
Proof. apply run_single_hold_no_exn. Qed.

Lemma run_single_hold_segment_numbers_witness :
  ex_run = (fst ex_run, inr tt)
  /\ move_numbers (trace (fst ex_run)) = seq 1 (count_drags ex_steps).
Proof.
  split; [reflexivity|].
  apply (run_single_hold_segment_numbers no_exn _ (FFin 1) (lit "left") (FFin (1 # 2))).
  reflexivity.
Defined.

Lemma run_single_hold_timed_moves_witness :
  ex_run = (fst ex_run, inr tt)
  /\ timed_moves (trace (fst ex_run)) = drag_targets (FFin 1) ex_steps.
Proof.
  split; [reflexivity|].
  apply (run_single_hold_timed_moves no_exn _ (FFin 1) (lit "left") (FFin (1 # 2))).
  reflexivity.
Defined.

Lemma run_single_hold_sleeps_witness :
  ex_run = (fst ex_run, inr tt)
  /\ sleep_calls (trace (fst ex_run)) =
       match first_drag ex_steps with None => [] | Some _ => sleep_args (FFin (1 # 2)) ex_steps end.
Proof.
  split; [reflexivity|].
  apply (run_single_hold_sleeps no_exn _ (FFin 1) (lit "left") (FFin (1 # 2))).
  reflexivity.
Defined.

Lemma run_single_hold_final_position_witness :
  ex_run = (fst ex_run, inr tt)
  /\ last_move (trace (fst ex_run)) = last_drag_end ex_steps.
Proof.
  split; [reflexivity|].
  apply (run_single_hold_final_position no_exn _ (FFin 1) (lit "left") (FFin (1 # 2))).
  reflexivity.
Defined.


Lemma parse_lines_count_witness :
  exists steps,
    parse_lines (lit "motions.txt") 1
      [lit "# comment"; lit "   "; lit "0,0 -> 5,5"; lit "SLEEP 1"] = inr steps
    /\ List.length steps =
       List.length (filter (fun raw => negb (skip_line raw))
         [lit "# comment"; lit "   "; lit "0,0 -> 5,5"; lit "SLEEP 1"]).
Proof.
  eexists; split; [reflexivity|].
  apply (parse_lines_count (lit "motions.txt") 1); reflexivity.
Defined.

Lemma parse_lines_app_witness :
  exists s1,
    parse_lines (lit "motions.txt") 1 [lit "0,0 -> 5,5"; lit ""] = inr s1
    /\ parse_lines (lit "motions.txt") 1 ([lit "0,0 -> 5,5"; lit ""] ++ [lit "bad"]) =
       match parse_lines (lit "motions.txt") (1 + 2)%nat [lit "bad"] with
       | inl m => inl m
       | inr s2 => inr (s1 ++ s2)
       end.
Proof.
  eexists; split; [reflexivity|].
  apply (parse_lines_app (lit "motions.txt") 1 [lit "0,0 -> 5,5"; lit ""]); reflexivity.
Defined.

Lemma main_no_exn_outcome_witness :
  exists steps,
    read_steps ex_args (mkInput [lit "0,0 -> 5,5"; lit "SLEEP -1"] None) = ReadOk steps
    /\ snd (main no_exn ex_args (mkInput [lit "0,0 -> 5,5"; lit "SLEEP -1"] None)) =
    match sleep_error (start_delay ex_args) with
    | Some e => Raised e
    | None =>
        match first_drag steps with
        | None => Returned
        | Some _ =>
            match first_error (sleep_args (between_delay ex_args) steps) with
            | Some e => Raised e
            | None => Returned
            end
        end
    end.
Proof.
  eexists; split; [reflexivity|].
  apply main_no_exn_outcome; reflexivity.
Defined.
